(** * Personal Library Manager: a shallow embedding of [library_manager.py]

    The program is a Streamlit script.  Every handler of the script
    ([add_book], [remove_book], [search_books], [display_statistics],
    [export_library], [import_library], [clear_library]) is embedded as a
    function that receives the values of the widgets it reads and the
    [world] it acts on (the two files, the session state, what has been
    shown on the page) and returns the catalog and the world it leaves.

    Python [str] values are embedded as [string], read as sequences of code
    points below 256: on that range [str.lower], [str.strip] and
    [str.splitlines] are the per-character tables written out below. *)

From Stdlib Require Import ZArith List Bool Ascii String Lia QArith.
From Stdlib Require Import Floats.SpecFloat.
From stdpp Require Import gmap strings.

Import ListNotations.
Local Open Scope Z_scope.

(** ** Python strings *)

Module Py.

Definition code (c : ascii) : nat := nat_of_ascii c.

(** [c.isspace()] for a code point below 256. *)
Definition is_space (c : ascii) : bool :=
  let n := code c in
  ((9 <=? n) && (n <=? 13) || (28 <=? n) && (n <=? 32)
   || (n =? 133) || (n =? 160))%nat.

(** The line boundaries of [str.splitlines] below 256:
    LF, VT, FF, CR, FS, GS, RS and NEL. *)
Definition is_linebreak (c : ascii) : bool :=
  let n := code c in
  ((10 <=? n) && (n <=? 13) || (28 <=? n) && (n <=? 30) || (n =? 133))%nat.

Definition LF : ascii := ascii_of_nat 10.
Definition CR : ascii := ascii_of_nat 13.

(** [c.lower()]: A-Z and the upper-case letters of Latin-1 (all of
    0xC0-0xDE but the multiplication sign) move up by 32. *)
Definition lower_char (c : ascii) : ascii :=
  let n := code c in
  if ((65 <=? n) && (n <=? 90)
      || (192 <=? n) && (n <=? 222) && negb (n =? 215))%nat
  then ascii_of_nat (n + 32) else c.

Fixpoint lower (s : string) : string :=
  match s with
  | EmptyString => EmptyString
  | String c s' => String (lower_char c) (lower s')
  end.

(** [s.startswith(p)] *)
Definition startswith (s p : string) : bool := String.prefix p s.

(** [sub in s] *)
Fixpoint contains (sub s : string) : bool :=
  String.prefix sub s ||
  match s with
  | EmptyString => false
  | String _ s' => contains sub s'
  end.

Fixpoint lstrip (s : string) : string :=
  match s with
  | EmptyString => EmptyString
  | String c s' => if is_space c then lstrip s' else s
  end.

Fixpoint rstrip (s : string) : string :=
  match s with
  | EmptyString => EmptyString
  | String c s' =>
      match rstrip s' with
      | EmptyString => if is_space c then EmptyString else String c EmptyString
      | r => String c r
      end
  end.

(** [s.strip()] *)
Definition strip (s : string) : string := rstrip (lstrip s).

(** [s.replace(old, new)] for a non-empty [old]: the occurrences of [old]
    are found from left to right and do not overlap; [skip] counts the
    characters of the current occurrence still to be dropped. *)
Fixpoint replace_from (old new : string) (skip : nat) (s : string) : string :=
  match s with
  | EmptyString => EmptyString
  | String c s' =>
      match skip with
      | S k => replace_from old new k s'
      | O =>
          if String.prefix old s
          then String.append new
                 (replace_from old new (Nat.pred (String.length old)) s')
          else String c (replace_from old new O s')
      end
  end.

Definition replace (s old new : string) : string := replace_from old new O s.

(** [s.splitlines()]: [line] is the line being read, [skip_lf] holds just
    after a CR, whose LF belongs to the same boundary.  A last line with no
    boundary after it is kept unless it is empty. *)
Fixpoint splitlines_from (line : string) (skip_lf : bool) (s : string)
  : list string :=
  match s with
  | EmptyString =>
      match line with EmptyString => [] | _ => [line] end
  | String c s' =>
      if skip_lf && Ascii.eqb c LF then splitlines_from EmptyString false s'
      else if is_linebreak c
           then line :: splitlines_from EmptyString (Ascii.eqb c CR) s'
           else splitlines_from (String.append line (String c EmptyString))
                  false s'
  end.

Definition splitlines (s : string) : list string :=
  splitlines_from EmptyString false s.

(** *** Integers and their decimal text *)

Definition is_digit (c : ascii) : bool :=
  let n := code c in ((48 <=? n) && (n <=? 57))%nat.

Definition digit_value (c : ascii) : Z := Z.of_nat (code c) - 48.

(** The digits of a base-10 literal: one or more digits, single underscores
    allowed between two digits. *)
Fixpoint parse_digits (s : string) (acc : Z) (after_digit : bool) : option Z :=
  match s with
  | EmptyString => if after_digit then Some acc else None
  | String c s' =>
      if is_digit c then parse_digits s' (10 * acc + digit_value c) true
      else if Ascii.eqb c "_"
           then if after_digit then parse_digits s' acc false else None
           else None
  end.

(** [int(s)] on a string that has been stripped already (as every caller in
    the program does); [None] stands for [ValueError].  The interpreter's
    configurable cap on the number of digits is not part of the model. *)
Definition int (s : string) : option Z :=
  match s with
  | String "-" s' => option_map Z.opp (parse_digits s' 0 false)
  | String "+" s' => parse_digits s' 0 false
  | _ => parse_digits s 0 false
  end.

Definition digit_char (d : Z) : ascii := ascii_of_nat (48 + Z.to_nat d).

Fixpoint str_digits (fuel : nat) (n : Z) (acc : string) : string :=
  let acc' := String (digit_char (n mod 10)) acc in
  match fuel with
  | O => acc'
  | S f => if n <? 10 then acc' else str_digits f (n / 10) acc'
  end.

(** [str(n)] for an integer [n]. *)
Definition str_of_int (n : Z) : string :=
  if n <? 0
  then String "-" (str_digits (Z.to_nat (Z.log2 (- n))) (- n) EmptyString)
  else str_digits (Z.to_nat (Z.log2 n)) n EmptyString.

End Py.

(** ** Data model *)

(** A book is a Python [dict]; the program only ever touches the five keys
    below.  A field is [None] when the key is absent, which is what
    [import_library] leaves when the text lacks the line; ["year"] holds an
    integer or Python's [None]. *)
Record book : Type := mkBook {
  title : option string;
  author : option string;
  year : option (option Z);
  genre : option string;
  read_status : option bool
}.

(** [{}] *)
Definition empty_book : book := mkBook None None None None None.

Definition set_title (v : string) (b : book) : book :=
  mkBook (Some v) (author b) (year b) (genre b) (read_status b).
Definition set_author (v : string) (b : book) : book :=
  mkBook (title b) (Some v) (year b) (genre b) (read_status b).
Definition set_year (v : option Z) (b : book) : book :=
  mkBook (title b) (author b) (Some v) (genre b) (read_status b).
Definition set_genre (v : string) (b : book) : book :=
  mkBook (title b) (author b) (year b) (Some v) (read_status b).
Definition set_read_status (v : bool) (b : book) : book :=
  mkBook (title b) (author b) (year b) (genre b) (Some v).

Definition library := list book.

(** ** Exceptions and results *)

Inductive exn : Type :=
| KeyError (key : string)
| UnicodeDecodeError.

Inductive result (A : Type) : Type :=
| Ok (a : A)
| Raised (e : exn).
Arguments Ok {A} a.
Arguments Raised {A} e.

Definition rbind {A B} (r : result A) (k : A -> result B) : result B :=
  match r with
  | Ok a => k a
  | Raised e => Raised e
  end.

(** [b[key]] *)
Definition getitem {A} (key : string) (field : option A) : result A :=
  match field with
  | Some v => Ok v
  | None => Raised (KeyError key)
  end.

(** [[b for b in l if keep(b)]]: the first exception ends the comprehension. *)
Fixpoint comprehension (keep : book -> result bool) (l : list book)
  : result (list book) :=
  match l with
  | [] => Ok []
  | b :: l' =>
      rbind (keep b) (fun k =>
      rbind (comprehension keep l') (fun rest =>
      Ok (if k then b :: rest else rest)))
  end.

(** ** What the page shows *)

(** The texts of the script's messages, with the values they interpolate. *)
Inductive message : Type :=
| BookAdded (title author : string)
| FillAllFields
| BookRemoved (title : string)
| BookNotFound
| NoMatchingBooks
| AddBooksToSeeStatistics
| Exported
| ExportError (e : exn)
| InvalidYear (line : string)
| Imported
| ImportError (e : exn)
| Cleared
| ConfirmClear.

Inductive output : Type :=
| success (m : message)
| error (m : message)
| warning (m : message)
| info (m : message)
| search_results_heading
| book_details (title author : string) (year : option Z) (genre : string)
    (read : bool)
| metric (label value : string)
| bar_chart (genre_counts : gmap string nat).

(** ** The world of the script *)

Record world : Type := mkWorld {
  library_json : option string;   (* LIBRARY_FILE, [None] when it does not exist *)
  library_txt : option string;    (* "library.txt" *)
  confirm_clear : bool;           (* st.session_state["confirm_clear"] *)
  page : list output              (* what has been rendered, oldest first *)
}.

Definition M (A : Type) : Type := world -> result A * world.

Definition ret {A} (a : A) : M A := fun w => (Ok a, w).
Definition raise {A} (e : exn) : M A := fun w => (Raised e, w).
Definition bind {A B} (c : M A) (k : A -> M B) : M B :=
  fun w => match c w with
           | (Ok a, w') => k a w'
           | (Raised e, w') => (Raised e, w')
           end.
Definition lift {A} (r : result A) : M A := fun w => (r, w).

Declare Scope script_scope.
Delimit Scope script_scope with script.
Notation "x <- c ;; k" := (bind c (fun x => k))
  (at level 100, c at next level, right associativity) : script_scope.
Notation "c ;;; k" := (bind c (fun _ => k))
  (at level 100, right associativity) : script_scope.
Local Open Scope script_scope.

Definition show (o : output) : M unit :=
  fun w => (Ok tt, mkWorld (library_json w) (library_txt w) (confirm_clear w)
                     (page w ++ [o])).

Definition set_confirm_clear (v : bool) : M unit :=
  fun w => (Ok tt, mkWorld (library_json w) (library_txt w) v (page w)).

Definition get_confirm_clear : M bool := fun w => (Ok (confirm_clear w), w).

Definition put_library_json (f : option string) : M unit :=
  fun w => (Ok tt, mkWorld f (library_txt w) (confirm_clear w) (page w)).

Definition put_library_txt (f : option string) : M unit :=
  fun w => (Ok tt, mkWorld (library_json w) f (confirm_clear w) (page w)).

(** [try: c except Exception as e: h(e)] *)
Definition try_except {A} (c : M A) (h : exn -> M A) : M A :=
  fun w => match c w with
           | (Ok a, w') => (Ok a, w')
           | (Raised e, w') => h e w'
           end.

(** ** The JSON text of a catalog *)

(** [json.dumps] with its defaults ([ensure_ascii], separators [", "] and
    [": "]) on the values the program stores.  The members of a book are
    written in the order title, author, year, genre, read_status, which is
    the order in which [add_book] and an exported text insert them. *)
Module Json.

Definition quote : ascii := ascii_of_nat 34.

Definition hex_digit (n : nat) : ascii :=
  if (n <? 10)%nat then ascii_of_nat (48 + n) else ascii_of_nat (87 + n).

Definition escape_char (c : ascii) : string :=
  let n := Py.code c in
  if Ascii.eqb c quote then String "\" (String quote EmptyString)
  else if Ascii.eqb c "\" then "\\"
  else if (n =? 10)%nat then "\n"
  else if (n =? 13)%nat then "\r"
  else if (n =? 9)%nat then "\t"
  else if (n =? 8)%nat then "\b"
  else if (n =? 12)%nat then "\f"
  else if ((32 <=? n) && (n <=? 126))%nat then String c EmptyString
  else String.append "\u00"
         (String (hex_digit (n / 16)) (String (hex_digit (n mod 16)) EmptyString)).

Fixpoint escape (s : string) : string :=
  match s with
  | EmptyString => EmptyString
  | String c s' => String.append (escape_char c) (escape s')
  end.

Definition dumps_str (s : string) : string :=
  String quote (String.append (escape s) (String quote EmptyString)).

Definition dumps_year (y : option Z) : string :=
  match y with
  | Some n => Py.str_of_int n
  | None => "null"
  end.

Definition dumps_bool (b : bool) : string := if b then "true" else "false".

Definition member {A} (key : string) (dump : A -> string) (field : option A)
  : list string :=
  match field with
  | Some v => [String.append (dumps_str key) (String.append ": " (dump v))]
  | None => []
  end.

Fixpoint join (sep : string) (l : list string) : string :=
  match l with
  | [] => EmptyString
  | [x] => x
  | x :: l' => String.append x (String.append sep (join sep l'))
  end.

Definition dumps_book (b : book) : string :=
  String.append "{"
    (String.append
       (join ", "
          (member "title" dumps_str (title b)
           ++ member "author" dumps_str (author b)
           ++ member "year" dumps_year (year b)
           ++ member "genre" dumps_str (genre b)
           ++ member "read_status" dumps_bool (read_status b)))
       "}").

Definition dumps (l : library) : string :=
  String.append "[" (String.append (join ", " (map dumps_book l)) "]").

End Json.

(** ** The store *)

(** [open(path, "w")]: the file exists and is empty from here on. *)
Definition open_w : option string := Some EmptyString.

(** [file.write(text)] *)
Definition file_write (text : string) (f : option string) : option string :=
  option_map (fun s => String.append s text) f.

(** The first [n] characters of [s]. *)
Definition first_chars (n : nat) (s : string) : string := String.substring 0 n s.

(** [save_library] when no more than [n] characters of the text reach the
    file: the file is opened in mode ["w"] first, then written. *)
Definition save_library_upto (n : nat) (library : library) : M unit :=
  put_library_json open_w ;;;
  fun w =>
    put_library_json
      (file_write (first_chars n (Json.dumps library)) (library_json w)) w.

Definition save_library (library : library) : M unit :=
  save_library_upto (String.length (Json.dumps library)) library.

(** ** The catalog *)

(** [bool(s)] and [bool(n)] *)
Definition truthy (s : string) : bool :=
  match s with EmptyString => false | _ => true end.
Definition nonzero (n : Z) : bool := negb (n =? 0).

(** The bounds of the "Publication Year" number input. *)
Definition year_min_value : Z := 1000.
Definition year_max_value : Z := 2024.
Definition number_input_value (y : Z) : Prop :=
  year_min_value <= y <= year_max_value.

Definition add_book (library : library)
    (title author : string) (year : Z) (genre : string) (read_status : bool)
    (button : bool) : M (list book) :=
  if button then
    if truthy title && truthy author && nonzero year && truthy genre then
      let book := mkBook (Some title) (Some author) (Some (Some year))
                    (Some genre) (Some read_status) in
      let library := library ++ [book] in
      save_library library ;;;
      show (success (BookAdded title author)) ;;;
      ret library
    else
      show (error FillAllFields) ;;;
      ret library
  else ret library.

Definition title_differs (title_to_remove : string) (book : book)
  : result bool :=
  rbind (getitem "title" (title book)) (fun t =>
  Ok (negb (String.eqb (Py.lower t) (Py.lower title_to_remove)))).

Definition remove_book (library : library) (title_to_remove : string)
    (button : bool) : M (list book) :=
  if button then
    let initial_count := length library in
    library <- lift (comprehension (title_differs title_to_remove) library) ;;
    if (length library <? initial_count)%nat then
      save_library library ;;;
      show (success (BookRemoved title_to_remove)) ;;;
      ret library
    else
      show (error BookNotFound) ;;;
      ret library
  else ret library.

(** [q.lower() in book["title"].lower() or q.lower() in book["author"].lower()] *)
Definition matches_query (search_query : string) (book : book) : result bool :=
  rbind (getitem "title" (title book)) (fun t =>
  if Py.contains (Py.lower search_query) (Py.lower t) then Ok true
  else rbind (getitem "author" (author book)) (fun a =>
       Ok (Py.contains (Py.lower search_query) (Py.lower a)))).

Definition show_book (book : book) : M unit :=
  t <- lift (getitem "title" (title book)) ;;
  a <- lift (getitem "author" (author book)) ;;
  y <- lift (getitem "year" (year book)) ;;
  g <- lift (getitem "genre" (genre book)) ;;
  r <- lift (getitem "read_status" (read_status book)) ;;
  show (book_details t a y g r).

Fixpoint for_each {A} (f : A -> M unit) (l : list A) : M unit :=
  match l with
  | [] => ret tt
  | x :: l' => f x ;;; for_each f l'
  end.

Definition search_books (library : library) (search_query : string) : M unit :=
  if truthy search_query then
    results <- lift (comprehension (matches_query search_query) library) ;;
    match results with
    | _ :: _ =>
        show search_results_heading ;;;
        for_each show_book results
    | [] => show (info NoMatchingBooks)
    end
  else ret tt.

(** ** Statistics *)

(** Python numbers as [display_statistics] meets them: an [int], or a
    [float], which is an IEEE 754 binary64 value. *)
Inductive number : Type :=
| Int (n : Z)
| Float (x : spec_float).

Definition prec : Z := 53.
Definition emax : Z := 1024.

(** [float(n)] *)
Definition float_of_int (n : Z) : spec_float :=
  binary_normalize prec emax n 0 false.

(** [a / b] on two [int]s that a binary64 holds exactly, [b] not zero. *)
Definition true_div (a b : Z) : spec_float :=
  SFdiv prec emax (float_of_int a) (float_of_int b).

(** [x * n] for a [float] [x] and an [int] [n] *)
Definition float_mul_int (x : spec_float) (n : Z) : spec_float :=
  SFmul prec emax x (float_of_int n).

(** The integer nearest to [num / den], ties to even, for [0 <= num] and
    [0 < den]. *)
Definition round_half_even (num den : Z) : Z :=
  let q := num / den in
  match (2 * (num mod den) ?= den) with
  | Lt => q
  | Gt => q + 1
  | Eq => if Z.even q then q else q + 1
  end.

(** The hundredths of the magnitude of a finite float, correctly rounded,
    as the format [.2f] prints them. *)
Definition hundredths (m : positive) (e : Z) : Z :=
  if 0 <=? e then Zpos m * 100 * 2 ^ e
  else round_half_even (Zpos m * 100) (2 ^ (- e)).

Definition two_digits (n : Z) : string :=
  if n <? 10 then String "0" (Py.str_of_int n) else Py.str_of_int n.

Definition fixed2 (negative : bool) (h : Z) : string :=
  String.append (if negative then "-" else EmptyString)
    (String.append (Py.str_of_int (h / 100))
       (String "." (two_digits (h mod 100)))).

(** [f"{v:.2f}"] *)
Definition format_2f (v : number) : string :=
  match v with
  | Int n => fixed2 (n <? 0) (Z.abs n * 100)
  | Float (S754_zero s) => fixed2 s 0
  | Float (S754_finite s m e) => fixed2 s (hundredths m e)
  | Float (S754_infinity s) => if s then "-inf" else "inf"
  | Float S754_nan => "nan"
  end.

(** [sum(1 for book in library if book["read_status"])] *)
Fixpoint count_read (library : library) : result Z :=
  match library with
  | [] => Ok 0
  | book :: rest =>
      rbind (getitem "read_status" (read_status book)) (fun r =>
      rbind (count_read rest) (fun n =>
      Ok (if r then 1 + n else n)))
  end.

(** [[book['genre'] for book in library]] *)
Fixpoint genres (library : library) : result (list string) :=
  match library with
  | [] => Ok []
  | book :: rest =>
      rbind (getitem "genre" (genre book)) (fun g =>
      rbind (genres rest) (fun gs => Ok (g :: gs)))
  end.

(** [pd.Series(values).value_counts()], as the mapping from each value to
    the number of times it occurs. *)
Definition value_counts (values : list string) : gmap string nat :=
  foldr (fun g counts => <[g := S (default 0%nat (counts !! g))]> counts)
        ∅ values.

Definition percentage_read (read_books total_books : Z) : number :=
  if total_books >? 0
  then Float (float_mul_int (true_div read_books total_books) 100)
  else Int 0.

Definition display_statistics (library : library) : M unit :=
  let total_books := Z.of_nat (length library) in
  read_books <- lift (count_read library) ;;
  let percentage_read := percentage_read read_books total_books in
  show (metric "Total Books" (Py.str_of_int total_books)) ;;;
  show (metric "Percentage Read"
          (String.append (format_2f percentage_read) "%")) ;;;
  match library with
  | _ :: _ =>
      gs <- lift (genres library) ;;
      show (bar_chart (value_counts gs))
  | [] => show (info AddBooksToSeeStatistics)
  end.

(** ** The text codec *)

Definition nl : string := String Py.LF EmptyString.

Definition write_txt (text : string) : M unit :=
  fun w => put_library_txt (file_write text (library_txt w)) w.

(** [f"{book['year']}"] *)
Definition str_of_year (y : option Z) : string :=
  match y with
  | Some n => Py.str_of_int n
  | None => "None"
  end.

Definition delimiter : string := "------------------------------".

(** The body of the loop of [export_library]: six writes, each after the
    lookup its text needs. *)
Definition export_book (book : book) : M unit :=
  t <- lift (getitem "title" (title book)) ;;
  write_txt (String.append "Title: " (String.append t nl)) ;;;
  a <- lift (getitem "author" (author book)) ;;
  write_txt (String.append "Author: " (String.append a nl)) ;;;
  y <- lift (getitem "year" (year book)) ;;
  write_txt (String.append "Year: " (String.append (str_of_year y) nl)) ;;;
  g <- lift (getitem "genre" (genre book)) ;;
  write_txt (String.append "Genre: " (String.append g nl)) ;;;
  r <- lift (getitem "read_status" (read_status book)) ;;
  write_txt (String.append "Read: "
               (String.append (if r then "Yes" else "No") nl)) ;;;
  write_txt (String.append delimiter nl).

Definition export_library (library : library) (button : bool) : M unit :=
  if button then
    try_except
      (put_library_txt open_w ;;;
       for_each export_book library ;;;
       show (success Exported))
      (fun e => show (error (ExportError e)))
  else ret tt.

(** What the file uploader holds: nothing, or bytes, given here by the
    outcome of [.decode("utf-8")] on them. *)
Inductive upload : Type :=
| NoFile
| Uploaded (decoded : result string).

(** One turn of the loop of [import_library] on the pair of its variables
    [library] and [book]. *)
Definition import_line (line : string) (vars : list book * book)
  : M (list book * book) :=
  let '(library, book) := vars in
  if Py.startswith line "Title:" then
    ret (library, set_title (Py.strip (Py.replace line "Title: " EmptyString)) book)
  else if Py.startswith line "Author:" then
    ret (library, set_author (Py.strip (Py.replace line "Author: " EmptyString)) book)
  else if Py.startswith line "Year:" then
    let year_str := Py.strip (Py.replace line "Year: " EmptyString) in
    match Py.int year_str with
    | Some n => ret (library, set_year (Some n) book)
    | None =>
        show (warning (InvalidYear line)) ;;;
        ret (library, set_year None book)
    end
  else if Py.startswith line "Genre:" then
    ret (library, set_genre (Py.strip (Py.replace line "Genre: " EmptyString)) book)
  else if Py.startswith line "Read:" then
    let book :=
      set_read_status
        (String.eqb (Py.strip (Py.replace line "Read: " EmptyString)) "Yes") book in
    ret (library ++ [book], empty_book)
  else ret (library, book).

Fixpoint import_lines (lines : list string) (vars : list book * book)
  : M (list book * book) :=
  match lines with
  | [] => ret vars
  | line :: rest =>
      vars <- import_line line vars ;;
      import_lines rest vars
  end.

Definition import_library (uploaded_file : upload) : M (option (list book)) :=
  match uploaded_file with
  | Uploaded decoded =>
      try_except
        (text <- lift decoded ;;
         let lines := Py.splitlines text in
         vars <- import_lines lines ([], empty_book) ;;
         let library := fst vars in
         save_library library ;;;
         show (success Imported) ;;;
         ret (Some library))
        (fun e => show (error (ImportError e)) ;;; ret None)
  | NoFile => ret None
  end.

(** ** Clearing, and the import branch of [main] *)

Definition clear_library (library : library) (button : bool) : M (list book) :=
  if button then
    confirmed <- get_confirm_clear ;;
    if confirmed then
      save_library [] ;;;
      show (success Cleared) ;;;
      set_confirm_clear false ;;;
      ret []
    else
      show (warning ConfirmClear) ;;;
      set_confirm_clear true ;;;
      ret library
  else ret library.

(** The branch of [main] for the menu entry "Import Library": [library] is
    the catalog [main] has loaded; the value is the catalog [main] holds
    afterwards.  An empty list is false in Python. *)
Definition main_import (library : library) (uploaded_file : upload)
  : M (list book) :=
  imported_library <- import_library uploaded_file ;;
  match imported_library with
  | Some ((_ :: _) as imported) => ret imported
  | _ => ret library
  end.

(** ** Running the script on small inputs *)

Definition world0 : world := mkWorld None None false [].

Definition Dune : book :=
  mkBook (Some "Dune") (Some "Herbert") (Some (Some 1965)) (Some "Sci-Fi")
    (Some true).
Definition Foundation : book :=
  mkBook (Some "Foundation") (Some "Asimov") (Some (Some 1951))
    (Some "Sci-Fi") (Some false).

(** ** Vocabulary of the statements *)

(** [b]'s title equals [t] up to case. *)
Definition same_title (t : string) (b : book) : bool :=
  match title b with
  | Some x => String.eqb (Py.lower x) (Py.lower t)
  | None => false
  end.

Definition has_title (b : book) : bool :=
  match title b with Some _ => true | None => false end.


Definition removed_count (t : string) (l : library) : nat :=
  length (List.filter (same_title t) l).

Definition dune : book :=
  mkBook (Some "dune") (Some "F. Herbert") (Some (Some 1984)) (Some "Novel")
    (Some false).

(** All five keys are present. *)
Definition is_complete (b : book) : bool :=
  match title b, author b, year b, genre b, read_status b with
  | Some _, Some _, Some _, Some _, Some _ => true
  | _, _, _, _, _ => false
  end.

(** [sub] occurs in [s]. *)
Definition occurs_in (sub s : string) : Prop :=
  exists pre post, s = String.append pre (String.append sub post).

(** [q] occurs in [s] when case is ignored. *)
Definition occurs_ignoring_case (q s : string) : Prop :=
  occurs_in (Py.lower q) (Py.lower s).

Definition query_matches (q : string) (b : book) : bool :=
  match title b, author b with
  | Some t, Some a =>
      Py.contains (Py.lower q) (Py.lower t)
      || Py.contains (Py.lower q) (Py.lower a)
  | _, _ => false
  end.

(** What [show_book] renders for a book. *)
Definition details_of (b : book) : list output :=
  match title b, author b, year b, genre b, read_status b with
  | Some t, Some a, Some y, Some g, Some r => [book_details t a y g r]
  | _, _, _, _, _ => []
  end.

(** [w] with [os] rendered after what the page holds. *)
Definition rendering (os : list output) (w : world) : world :=
  mkWorld (library_json w) (library_txt w) (confirm_clear w) (page w ++ os).

(** The fields that [add] is asked to validate. *)
Inductive field : Type :=
| title_field
| author_field
| year_field
| genre_field.

Definition is_read (b : book) : bool :=
  match read_status b with Some r => r | None => false end.

Definition genre_of (b : book) : string :=
  match genre b with Some g => g | None => EmptyString end.

(** How many times [g] occurs in [values]. *)
Definition occurrences (g : string) (values : list string) : nat :=
  count_occ string_dec values g.

(** [h] hundredths is a two-decimal value nearest to [100 * r / t]. *)
Definition nearest_hundredths (h r t : Z) : Prop :=
  2 * Z.abs (h * t - 10000 * r) <= t.

(** The text before the first point of [s], and the text after it. *)
Fixpoint point_split (s : string) : option (string * string) :=
  match s with
  | EmptyString => None
  | String c s' =>
      if Ascii.eqb c "." then Some (EmptyString, s')
      else match point_split s' with
           | Some (i, f) => Some (String c i, f)
           | None => None
           end
  end.

(** The hundredths that an unsigned text with two decimals stands for:
    digits, a point and two digits. *)
Definition decimal_hundredths (s : string) : option Z :=
  match point_split s with
  | Some (i, f) =>
      match Py.parse_digits i 0 false, Py.parse_digits f 0 false with
      | Some a, Some b =>
          if (String.length f =? 2)%nat then Some (100 * a + b) else None
      | _, _ => None
      end
  | None => None
  end.

(** Where the remainder [rem] of a division by [den] lies between one
    quotient and the next: the [location] that the rounding of a binary64
    operation works from. *)
Definition loc_of_rem (rem den : Z) : location :=
  if rem =? 0 then loc_Exact else loc_Inexact (2 * rem ?= den).

(** The shift register [mrs] holds the integer part of [A / B] and the
    location of [A / B] between it and the next integer. *)
Definition locates (A B : Z) (mrs : shr_record) : Prop :=
  0 <= A /\ 0 < B /\ shr_m mrs = A / B /\
  loc_of_shr_record mrs = loc_of_rem (A mod B) B.

(** Every character of [s] satisfies [p]. *)
Fixpoint all_chars (p : ascii -> bool) (s : string) : bool :=
  match s with
  | EmptyString => true
  | String c s' => p c && all_chars p s'
  end.

Definition single_line (s : string) : bool :=
  all_chars (fun c => negb (Py.is_linebreak c)) s.

(** A character of a decimal integer text. *)
Definition is_int_char (c : ascii) : bool :=
  Py.is_digit c || Ascii.eqb c "-".

(** The six lines that [export_book] writes for a complete book. *)
Definition record_lines (b : book) : list string :=
  match title b, author b, year b, genre b, read_status b with
  | Some t, Some a, Some y, Some g, Some r =>
      [String.append "Title: " t;
       String.append "Author: " a;
       String.append "Year: " (str_of_year y);
       String.append "Genre: " g;
       String.append "Read: " (if r then "Yes" else "No");
       delimiter]
  | _, _, _, _, _ => []
  end.

(** Each line followed by a line feed. *)
Fixpoint unlines (lines : list string) : string :=
  match lines with
  | [] => EmptyString
  | line :: rest => String.append line (String.append nl (unlines rest))
  end.

(** The text that [export_library] writes for a catalog of complete books. *)
Definition encode (c : library) : string := unlines (flat_map record_lines c).

(** The variables [import_line] leaves, and the warnings it shows: both are
    read off [import_line] itself, which never raises and does not look at
    the world. *)
Definition decode_line (line : string) (vars : list book * book)
  : list book * book :=
  match fst (import_line line vars world0) with
  | Ok vars' => vars'
  | Raised _ => vars
  end.

Definition line_warnings (line : string) (vars : list book * book)
  : list output :=
  page (snd (import_line line vars world0)).

Fixpoint decode_lines (lines : list string) (vars : list book * book)
  : list book * book :=
  match lines with
  | [] => vars
  | line :: rest => decode_lines rest (decode_line line vars)
  end.

Fixpoint lines_warnings (lines : list string) (vars : list book * book)
  : list output :=
  match lines with
  | [] => []
  | line :: rest =>
      line_warnings line vars ++ lines_warnings rest (decode_line line vars)
  end.

(** What [import_library] makes of a text. *)
Definition decode (text : string) : list book :=
  fst (decode_lines (Py.splitlines text) ([], empty_book)).

(** A text field that comes back from the text format as it went in: one
    line, no white space at either end, no occurrence of its own label. *)
Definition survives (label s : string) : bool :=
  single_line s && String.eqb (Py.strip s) s && negb (Py.contains label s).

Definition round_trips (b : book) : bool :=
  match title b, author b, year b, genre b, read_status b with
  | Some t, Some a, Some _, Some g, Some _ =>
      survives "Title: " t && survives "Author: " a && survives "Genre: " g
  | _, _, _, _, _ => false
  end.

(** A valid Book: the three text fields are non-empty single-line texts,
    the year is an integer, the read status a boolean. *)
Definition valid_book (b : book) : bool :=
  match title b, author b, year b, genre b, read_status b with
  | Some t, Some a, Some (Some _), Some g, Some _ =>
      truthy t && single_line t && truthy a && single_line a
      && truthy g && single_line g
  | _, _, _, _, _ => false
  end.

Definition padded_Dune : book :=
  mkBook (Some " Dune") (Some "Herbert") (Some (Some 1965)) (Some "Sci-Fi")
    (Some true).



(** A world whose file holds the saved catalog [l]. *)
Definition world_with (l : library) : world :=
  mkWorld (Some (Json.dumps l)) None false [].

(** ** Vocabulary of the further properties *)

(** The first key that [export_book] looks up and does not find. *)
Definition missing_key (b : book) : option string :=
  match title b, author b, year b, genre b, read_status b with
  | None, _, _, _, _ => Some "title"
  | Some _, None, _, _, _ => Some "author"
  | Some _, Some _, None, _, _ => Some "year"
  | Some _, Some _, Some _, None, _ => Some "genre"
  | Some _, Some _, Some _, Some _, None => Some "read_status"
  | Some _, Some _, Some _, Some _, Some _ => None
  end.

(** The lines that [export_book] has written when it meets the missing key. *)
Definition lines_before_missing (b : book) : list string :=
  match title b with
  | None => []
  | Some t =>
      String.append "Title: " t ::
      match author b with
      | None => []
      | Some a =>
          String.append "Author: " a ::
          match year b with
          | None => []
          | Some y =>
              String.append "Year: " (str_of_year y) ::
              match genre b with
              | None => []
              | Some g => [String.append "Genre: " g]
              end
          end
      end
  end.

Definition has_read_status (b : book) : bool :=
  match read_status b with Some _ => true | None => false end.

Definition has_genre (b : book) : bool :=
  match genre b with Some _ => true | None => false end.

(** A computation of the script moves every world to one related by [R]. *)
Definition respects (R : world -> world -> Prop) {A} (c : M A) : Prop :=
  forall w, R w (snd (c w)).

(** [w'] is [w] with more rendered on the page: the files and the session
    state are the same. *)
Definition only_renders (w w' : world) : Prop :=
  exists os, w' = rendering os w.

Definition same_flag (w w' : world) : Prop :=
  confirm_clear w' = confirm_clear w.

(** The sum of the counts of a histogram. *)
Definition total_count (counts : gmap string nat) : nat :=
  map_fold (fun _ n acc => (n + acc)%nat) 0%nat counts.

(** The line starts with one of the five labels that [import_library]
    looks for. *)
Definition is_labelled (line : string) : bool :=
  Py.startswith line "Title:" || Py.startswith line "Author:"
  || Py.startswith line "Year:" || Py.startswith line "Genre:"
  || Py.startswith line "Read:".

Definition is_Read_line (line : string) : bool := Py.startswith line "Read:".

(** A [Year:] line on whose value [int] raises. *)
Definition invalid_year_line (line : string) : bool :=
  Py.startswith line "Year:" &&
  match Py.int (Py.strip (Py.replace line "Year: " EmptyString)) with
  | Some _ => false
  | None => true
  end.

(** The most digits that [int] reads by default
    ([sys.int_info.default_max_str_digits]); on a longer number it raises
    [ValueError], which [Py.int] does not model. *)
Definition max_str_digits : nat := 4300.

(** No line of the text is longer than the digits that [int] reads, so that
    [Py.int] is [int] on every value of the text. *)
Definition short_lines (text : string) : bool :=
  forallb (fun line => Nat.leb (String.length line) max_str_digits)
    (Py.splitlines text).

(** Each line followed by CR LF, as a text file is written where that is
    the line separator. *)
Fixpoint unlines_crlf (lines : list string) : string :=
  match lines with
  | [] => EmptyString
  | line :: rest =>
      String.append line
        (String Py.CR (String Py.LF (unlines_crlf rest)))
  end.

(** What a text field becomes on its way through the text format. *)
Definition normal (label s : string) : string :=
  Py.strip (Py.replace s label EmptyString).

Definition normalize (b : book) : book :=
  mkBook (option_map (normal "Title: ") (title b))
         (option_map (normal "Author: ") (author b))
         (year b)
         (option_map (normal "Genre: ") (genre b))
         (read_status b).

(** A complete book whose three text fields are single lines. *)
Definition exportable (b : book) : bool :=
  match title b, author b, year b, genre b, read_status b with
  | Some t, Some a, Some _, Some g, Some _ =>
      single_line t && single_line a && single_line g
  | _, _, _, _, _ => false
  end.

Definition trimmed (field : option string) : bool :=
  match field with
  | Some s => String.eqb (Py.strip s) s
  | None => true
  end.

(** The text fields that the book has carry no white space at either end. *)
Definition trimmed_fields (b : book) : bool :=
  trimmed (title b) && trimmed (author b) && trimmed (genre b).
(** * Properties *)

(** ** Python strings on small inputs *)

Example lower_Dune : Py.lower "DuNe Ab" = "dune ab".
Proof. reflexivity. Qed.

Example strip_pad : Py.strip "  a b 	" = "a b".
Proof. reflexivity. Qed.

Example replace_twice : Py.replace "Title: A Title: B" "Title: " EmptyString = "A B".
Proof. reflexivity. Qed.

Example splitlines_crlf :
  Py.splitlines (String "a" (String Py.CR (String Py.LF (String Py.LF "b"))))
  = ["a"; EmptyString; "b"].
Proof. reflexivity. Qed.

Example int_examples :
  Py.int "1965" = Some 1965 /\ Py.int "-12" = Some (-12) /\
  Py.int "1_000" = Some 1000 /\ Py.int "abcd" = None /\ Py.int EmptyString = None /\
  Py.int "1__0" = None /\ Py.int "12_" = None.
Proof. repeat split; reflexivity. Qed.

Example str_examples :
  Py.str_of_int 1965 = "1965" /\ Py.str_of_int 0 = "0" /\
  Py.str_of_int (-40) = "-40" /\ Py.str_of_int 10 = "10".
Proof. repeat split; reflexivity. Qed.

(** ** Results and comprehensions *)

Lemma comprehension_filter (keep : book -> result bool) (f : book -> bool)
    (l : list book) :
  (forall b, In b l -> keep b = Ok (f b)) ->
  comprehension keep l = Ok (List.filter f l).
Proof.
  induction l as [|b l IH]; intros H; simpl; [reflexivity|].
  rewrite (H b (or_introl eq_refl)); simpl.
  rewrite IH by (intros; apply H; right; assumption).
  simpl. destruct (f b); reflexivity.
Qed.

Lemma filter_length_partition {A} (f : A -> bool) (l : list A) :
  length l
  = (length (List.filter f l)
     + length (List.filter (fun x => negb (f x)) l))%nat.
Proof.
  induction l as [|x l IH]; simpl; [reflexivity|].
  destruct (f x); simpl; lia.
Qed.

Lemma filter_none_all {A} (f : A -> bool) (l : list A) :
  List.filter f l = [] -> List.filter (fun x => negb (f x)) l = l.
Proof.
  induction l as [|x l IH]; simpl; [reflexivity|].
  destruct (f x); simpl; [discriminate | intros H; f_equal; auto].
Qed.

(** ** The store *)

Lemma substring_all (s : string) : String.substring 0 (String.length s) s = s.
Proof. induction s; simpl; [reflexivity | f_equal; assumption]. Qed.

Lemma save_library_upto_run (n : nat) (l : library) (w : world) :
  save_library_upto n l w
  = (Ok tt, mkWorld (Some (first_chars n (Json.dumps l))) (library_txt w)
              (confirm_clear w) (page w)).
Proof. reflexivity. Qed.

Lemma save_library_run (l : library) (w : world) :
  save_library l w
  = (Ok tt, mkWorld (Some (Json.dumps l)) (library_txt w) (confirm_clear w)
              (page w)).
Proof.
  unfold save_library. rewrite save_library_upto_run.
  unfold first_chars. rewrite substring_all. reflexivity.
Qed.

(** ** Removing *)

Lemma title_differs_total (t : string) (l : list book) :
  forallb has_title l = true ->
  forall b, In b l -> title_differs t b = Ok (negb (same_title t b)).
Proof.
  intros H b Hb. rewrite forallb_forall in H. specialize (H b Hb).
  unfold has_title in H. unfold title_differs, same_title.
  destruct (title b); [reflexivity | discriminate].
Qed.

(** C3, as amended.  For every catalog whose books all have a title and
    every title string, [remove_book] (button pressed) leaves exactly the
    books whose title differs from the given one up to case, in their
    order; the catalog shrinks by the number of books that matched.  When
    at least one matched, the new catalog is saved and a success message
    naming the title is shown; when none matched, the catalog is unchanged,
    nothing is saved and "Book not found." is shown.  No count is shown. *)
Theorem remove_book_removes_matching (l : library) (t : string) (w : world) :
  forallb has_title l = true ->
  let kept := List.filter (fun b => negb (same_title t b)) l in
  fst (remove_book l t true w) = Ok kept /\
  (length l = length kept + removed_count t l)%nat /\
  (removed_count t l <> 0%nat ->
   snd (remove_book l t true w)
   = mkWorld (Some (Json.dumps kept)) (library_txt w) (confirm_clear w)
       (page w ++ [success (BookRemoved t)])) /\
  (removed_count t l = 0%nat ->
   kept = l /\
   snd (remove_book l t true w)
   = mkWorld (library_json w) (library_txt w) (confirm_clear w)
       (page w ++ [error BookNotFound])).
Proof.
  intros Hl kept.
  pose proof (filter_length_partition (same_title t) l) as Hlen.
  fold kept in Hlen. fold (removed_count t l) in Hlen.
  unfold remove_book, bind, lift.
  rewrite (comprehension_filter _ _ l (title_differs_total t l Hl)).
  fold kept.
  destruct (Nat.ltb_spec (length kept) (length l)) as [Hlt|Hge].
  - rewrite save_library_run. simpl.
    split; [reflexivity|]. split; [lia|].
    split; intros H; [reflexivity | lia].
  - simpl.
    split; [reflexivity|]. split; [lia|].
    split; intros H; [lia|].
    split; [|reflexivity].
    apply filter_none_all. apply length_zero_iff_nil. exact H.
Qed.

Lemma remove_book_removes_matching_witness :
  forallb has_title [Dune; Foundation; dune] = true /\
  fst (remove_book [Dune; Foundation; dune] "DUNE" true world0)
  = Ok [Foundation].
Proof.
  split; [reflexivity|].
  exact (proj1 (remove_book_removes_matching [Dune; Foundation; dune] "DUNE"
                  world0 eq_refl)).
Defined.

(** C3, as stated, fails: what [remove_book] reports is the same when one
    book is removed and when two are, so the number removed cannot be read
    off its report. *)
Lemma remove_book_report_has_no_count :
  ~ exists reported : list output -> nat,
      reported (page (snd (remove_book [Dune] "Dune" true world0)))
      = removed_count "Dune" [Dune] /\
      reported (page (snd (remove_book [Dune; dune] "Dune" true world0)))
      = removed_count "Dune" [Dune; dune].
Proof.
  intros [reported [H1 H2]].
  vm_compute in H1, H2. rewrite H1 in H2. discriminate H2.
Qed.

(** ** Searching *)

Lemma append_cons (c : ascii) (s t : string) :
  String.append (String c s) t = String c (String.append s t).
Proof. reflexivity. Qed.

Lemma append_empty_l (s : string) : String.append EmptyString s = s.
Proof. reflexivity. Qed.

Lemma append_empty_r (s : string) : String.append s EmptyString = s.
Proof. induction s; [reflexivity | rewrite append_cons; f_equal; assumption]. Qed.

Lemma append_assoc (s t u : string) :
  String.append (String.append s t) u = String.append s (String.append t u).
Proof.
  induction s; [reflexivity | rewrite !append_cons; f_equal; assumption].
Qed.

Lemma prefix_occurs (p s : string) :
  String.prefix p s = true <-> exists post, s = String.append p post.
Proof.
  revert s. induction p as [|c p IH]; intros s.
  - split; [intros _; exists s; reflexivity | intros _; destruct s; reflexivity].
  - destruct s as [|d s];
      [split; [discriminate | intros [post H]; discriminate]|].
    simpl String.prefix. destruct (Ascii.ascii_dec c d) as [->|Hne].
    + rewrite IH. split; intros [post H]; exists post.
      * rewrite append_cons. f_equal. exact H.
      * rewrite append_cons in H. injection H as H. exact H.
    + split; [discriminate|]. intros [post H]. rewrite append_cons in H.
      injection H as H1 H2. congruence.
Qed.

Lemma contains_occurs (sub s : string) :
  Py.contains sub s = true <-> occurs_in sub s.
Proof.
  induction s as [|c s IH].
  - change (Py.contains sub EmptyString)
      with (String.prefix sub EmptyString || false).
    rewrite orb_false_r, prefix_occurs. split.
    + intros [post H]. exists EmptyString, post. exact H.
    + intros [pre [post H]].
      destruct pre; [exists post; exact H | discriminate].
  - change (Py.contains sub (String c s))
      with (String.prefix sub (String c s) || Py.contains sub s).
    rewrite orb_true_iff, prefix_occurs, IH. split.
    + intros [[post H]|[pre [post H]]].
      * exists EmptyString, post. exact H.
      * exists (String c pre), post. rewrite append_cons. f_equal. exact H.
    + intros [pre [post H]]. destruct pre as [|d pre].
      * left. exists post. exact H.
      * right. rewrite append_cons in H. injection H as _ H.
        exists pre, post. exact H.
Qed.

Lemma matches_query_total (q : string) (b : book) :
  is_complete b = true -> matches_query q b = Ok (query_matches q b).
Proof.
  unfold is_complete, matches_query, query_matches.
  destruct (title b) as [t|]; [|discriminate].
  destruct (author b) as [a|]; [|discriminate]. intros _. simpl.
  destruct (Py.contains (Py.lower q) (Py.lower t)); reflexivity.
Qed.

Lemma show_book_run (b : book) (w : world) :
  is_complete b = true -> show_book b w = (Ok tt, rendering (details_of b) w).
Proof.
  unfold is_complete, show_book, details_of.
  destruct (title b), (author b), (year b), (genre b), (read_status b);
    try discriminate.
  intros _. reflexivity.
Qed.

Lemma show_run (o : output) (w : world) : show o w = (Ok tt, rendering [o] w).
Proof. reflexivity. Qed.

Lemma rendering_rendering (os os' : list output) (w : world) :
  rendering os' (rendering os w) = rendering (os ++ os') w.
Proof. unfold rendering. simpl. rewrite <- app_assoc. reflexivity. Qed.

Lemma rendering_nil (w : world) : rendering [] w = w.
Proof. destruct w. unfold rendering. simpl. rewrite app_nil_r. reflexivity. Qed.

Lemma for_each_show_book (l : list book) (w : world) :
  forallb is_complete l = true ->
  for_each show_book l w = (Ok tt, rendering (flat_map details_of l) w).
Proof.
  revert w. induction l as [|b l IH]; intros w H; simpl.
  - unfold ret. rewrite rendering_nil. reflexivity.
  - simpl in H. apply andb_true_iff in H as [Hb Hl].
    unfold bind. rewrite (show_book_run b w Hb), (IH _ Hl).
    rewrite rendering_rendering. reflexivity.
Qed.

Lemma forallb_filter {A} (p f : A -> bool) (l : list A) :
  forallb p l = true -> forallb p (List.filter f l) = true.
Proof.
  induction l as [|x l IH]; simpl; [reflexivity|].
  intros H. apply andb_true_iff in H as [Hx Hl].
  destruct (f x); simpl; [rewrite Hx|]; auto.
Qed.

(** C4.  For every catalog of complete books and every query,
    [search_books] with a non-empty query renders exactly the books whose
    title or author contains the query when case is ignored, in catalog
    order (or "No matching books found." when there is none); with the
    empty query it renders nothing, whatever the catalog holds. *)
Theorem search_books_shows_matches (l : library) (q : string) (w : world) :
  forallb is_complete l = true ->
  let results := List.filter (query_matches q) l in
  (forall b, In b results <->
     In b l /\
     exists t a, title b = Some t /\ author b = Some a /\
       (occurs_ignoring_case q t \/ occurs_ignoring_case q a)) /\
  (q <> EmptyString ->
   search_books l q w
   = (Ok tt,
      rendering
        match results with
        | [] => [info NoMatchingBooks]
        | _ :: _ => search_results_heading :: flat_map details_of results
        end w)) /\
  search_books l EmptyString w = (Ok tt, w).
Proof.
  intros Hl results. split; [|split].
  - intros b. unfold results. rewrite filter_In.
    split; intros [Hb H]; (split; [exact Hb|]).
    + rewrite forallb_forall in Hl. specialize (Hl b Hb).
      unfold is_complete in Hl. unfold query_matches in H.
      destruct (title b) as [t|]; [|discriminate].
      destruct (author b) as [a|]; [|discriminate].
      exists t, a. split; [reflexivity|]. split; [reflexivity|].
      apply orb_true_iff in H. unfold occurs_ignoring_case.
      rewrite <- !contains_occurs. exact H.
    + destruct H as [t [a [Ht [Ha H]]]]. unfold query_matches.
      rewrite Ht, Ha. apply orb_true_iff.
      unfold occurs_ignoring_case in H. rewrite <- !contains_occurs in H.
      exact H.
  - intros Hq. unfold search_books.
    destruct q as [|c q]; [congruence|].
    change (truthy (String c q)) with true. cbv iota.
    unfold bind at 1. unfold lift.
    rewrite (comprehension_filter _ (query_matches (String c q)) l)
      by (intros b Hb; apply matches_query_total;
          rewrite forallb_forall in Hl; auto).
    fold results.
    assert (Hr : forallb is_complete results = true)
      by (apply forallb_filter; exact Hl).
    destruct results as [|b rs]; [reflexivity|].
    cbv beta iota. unfold bind at 1. unfold show at 1.
    rewrite (for_each_show_book _ _ Hr).
    unfold rendering. simpl. rewrite <- app_assoc. reflexivity.
  - reflexivity.
Qed.

Lemma search_books_shows_matches_witness :
  forallb is_complete [Dune; Foundation; dune] = true /\
  search_books [Dune; Foundation; dune] "HERB" world0
  = (Ok tt,
     rendering
       [search_results_heading;
        book_details "Dune" "Herbert" (Some 1965) "Sci-Fi" true;
        book_details "dune" "F. Herbert" (Some 1984) "Novel" false] world0).
Proof.
  split; [reflexivity|].
  refine (proj1 (proj2 (search_books_shows_matches [Dune; Foundation; dune]
                          "HERB" world0 eq_refl)) _).
  discriminate.
Defined.

(** ** Adding *)

Lemma truthy_false (s : string) : truthy s = false <-> s = EmptyString.
Proof. destruct s; simpl; split; congruence. Qed.

Lemma truthy_true (s : string) : truthy s = true <-> s <> EmptyString.
Proof. destruct s; simpl; split; congruence. Qed.

Lemma add_book_accepted (l : library) (t a : string) (y : Z) (g : string)
    (r : bool) (w : world) :
  truthy t && truthy a && nonzero y && truthy g = true ->
  add_book l t a y g r true w
  = (Ok (l ++ [mkBook (Some t) (Some a) (Some (Some y)) (Some g) (Some r)]),
     mkWorld
       (Some (Json.dumps
                (l ++ [mkBook (Some t) (Some a) (Some (Some y)) (Some g)
                         (Some r)])))
       (library_txt w) (confirm_clear w)
       (page w ++ [success (BookAdded t a)])).
Proof.
  intros H. unfold add_book. rewrite H.
  unfold bind. rewrite save_library_run. reflexivity.
Qed.

(** The test of [add_book] does not look at the range of the year: any
    year but zero passes it.  The range is the business of the number
    input that supplies the year. *)
Lemma add_book_accepts_nonzero_year (l : library) (y : Z) (w : world) :
  y <> 0 ->
  fst (add_book l "Dune" "Herbert" y "Sci-Fi" true true w)
  = Ok (l ++ [mkBook (Some "Dune") (Some "Herbert") (Some (Some y))
                (Some "Sci-Fi") (Some true)]).
Proof.
  intros Hy. rewrite add_book_accepted; [reflexivity|].
  unfold nonzero. destruct (Z.eqb_spec y 0) as [|_]; [contradiction|].
  reflexivity.
Qed.

(** C2, as amended.  With a year supplied by the number input (between
    1000 and 2024), [add_book] (button pressed) rejects the entry when the
    title, the author or the genre is empty: the catalog is returned as it
    was, nothing is saved, and the one message "Please fill in all
    fields." is shown, whichever field is at fault.  Otherwise the book is
    appended at the end of the catalog, the catalog is saved and a success
    message is shown. *)
Theorem add_book_rejects_or_appends (l : library) (t a : string) (y : Z)
    (g : string) (r : bool) (w : world) :
  number_input_value y ->
  (t = EmptyString \/ a = EmptyString \/ g = EmptyString ->
   add_book l t a y g r true w = (Ok l, rendering [error FillAllFields] w)) /\
  (t <> EmptyString -> a <> EmptyString -> g <> EmptyString ->
   let book := mkBook (Some t) (Some a) (Some (Some y)) (Some g) (Some r) in
   add_book l t a y g r true w
   = (Ok (l ++ [book]),
      mkWorld (Some (Json.dumps (l ++ [book]))) (library_txt w)
        (confirm_clear w) (page w ++ [success (BookAdded t a)]))).
Proof.
  intros [Hlo Hhi]. unfold year_min_value in Hlo.
  assert (Hy : nonzero y = true).
  { unfold nonzero. destruct (Z.eqb_spec y 0); [lia | reflexivity]. }
  split.
  - intros H. unfold add_book. rewrite Hy.
    assert (Hf : truthy t && truthy a && true && truthy g = false).
    { destruct H as [-> | [-> | ->]]; simpl; rewrite ?andb_false_r; reflexivity. }
    rewrite Hf. reflexivity.
  - intros Ht Ha Hg book.
    apply truthy_true in Ht, Ha, Hg.
    apply add_book_accepted. rewrite Ht, Ha, Hg, Hy. reflexivity.
Qed.

Lemma add_book_rejects_or_appends_witness :
  number_input_value 1965 /\
  add_book [Foundation] "Dune" "Herbert" 1965 "Sci-Fi" true true world0
  = (Ok [Foundation; Dune],
     mkWorld (Some (Json.dumps [Foundation; Dune])) None false
       [success (BookAdded "Dune" "Herbert")]) /\
  add_book [Foundation] "Dune" "Herbert" 1965 EmptyString true true world0
  = (Ok [Foundation], rendering [error FillAllFields] world0).
Proof.
  assert (Hy : number_input_value 1965)
    by (unfold number_input_value, year_min_value, year_max_value; lia).
  split; [exact Hy|]. split.
  - refine (proj2 (add_book_rejects_or_appends [Foundation] "Dune" "Herbert"
                     1965 "Sci-Fi" true world0 Hy) _ _ _); discriminate.
  - apply (proj1 (add_book_rejects_or_appends [Foundation] "Dune" "Herbert"
                    1965 EmptyString true world0 Hy)).
    right. right. reflexivity.
Defined.

(** C2, as stated, fails: the error that [add_book] signals is the same
    for an empty title and for an empty genre, so it names no field. *)
Lemma add_book_error_names_no_field :
  ~ exists named : list output -> list field,
      named (page (snd (add_book [] EmptyString "Herbert" 1965 "Sci-Fi" true true
                          world0)))
      = [title_field] /\
      named (page (snd (add_book [] "Dune" "Herbert" 1965 EmptyString true true
                          world0)))
      = [genre_field].
Proof.
  intros [named [H1 H2]].
  vm_compute in H1, H2. rewrite H1 in H2. discriminate H2.
Qed.

(** ** Clearing *)

(** C7, as amended.  A press of the clear button while the session's
    [confirm_clear] flag is unset leaves the catalog and the file as they
    are, shows the request for confirmation and sets the flag; a press
    while the flag is set empties the catalog, saves the empty catalog,
    shows success and resets the flag.  The flag is session state that
    [clear_library] itself reads and writes; the caller supplies none. *)
Theorem clear_library_two_presses (l : library) (w : world) :
  (confirm_clear w = false ->
   clear_library l true w
   = (Ok l, mkWorld (library_json w) (library_txt w) true
              (page w ++ [warning ConfirmClear]))) /\
  (confirm_clear w = true ->
   clear_library l true w
   = (Ok [], mkWorld (Some (Json.dumps [])) (library_txt w) false
               (page w ++ [success Cleared]))).
Proof.
  unfold clear_library, bind, get_confirm_clear.
  split; intros H; rewrite H; [reflexivity|].
  rewrite save_library_run. reflexivity.
Qed.

Lemma clear_library_two_presses_witness :
  confirm_clear world0 = false /\
  clear_library [Dune; Foundation] true world0
  = (Ok [Dune; Foundation],
     mkWorld None None true [warning ConfirmClear]) /\
  confirm_clear (snd (clear_library [Dune; Foundation] true world0)) = true /\
  clear_library [Dune; Foundation] true
    (snd (clear_library [Dune; Foundation] true world0))
  = (Ok [], mkWorld (Some "[]") None false
              [warning ConfirmClear; success Cleared]).
Proof.
  split; [reflexivity|]. split.
  - exact (proj1 (clear_library_two_presses [Dune; Foundation] world0) eq_refl).
  - split; [reflexivity|].
    exact (proj2 (clear_library_two_presses [Dune; Foundation]
                    (snd (clear_library [Dune; Foundation] true world0)))
             eq_refl).
Defined.

(** C7, as stated, fails: the outcome of [clear_library] is not a function
    of what the caller passes; the same call keeps the catalog the first
    time and empties it the second, on the flag the first call left. *)
Lemma clear_library_is_not_stateless :
  ~ exists outcome : library -> bool -> result (list book),
      forall w, fst (clear_library [Dune] true w) = outcome [Dune] true.
Proof.
  intros [outcome H].
  pose proof (H world0) as H0.
  pose proof (H (snd (clear_library [Dune] true world0))) as H1.
  rewrite <- H0 in H1. vm_compute in H1. discriminate H1.
Qed.

(** ** Python strings: replace, strip, splitlines *)

Lemma prefix_append (p s : string) : String.prefix p (String.append p s) = true.
Proof. apply prefix_occurs. exists s. reflexivity. Qed.

Lemma replace_from_skip (old new p s : string) :
  Py.replace_from old new (String.length p) (String.append p s)
  = Py.replace_from old new O s.
Proof.
  induction p as [|c p IH]; [destruct s; reflexivity|].
  rewrite append_cons. exact IH.
Qed.

(** The occurrence of [old] at the head of the line is dropped, and the
    search goes on behind it. *)
Lemma replace_head (old s : string) :
  old <> EmptyString ->
  Py.replace (String.append old s) old EmptyString
  = Py.replace s old EmptyString.
Proof.
  intros Hold. destruct old as [|c p]; [congruence|].
  unfold Py.replace. rewrite append_cons.
  change (Py.replace_from (String c p) EmptyString O
            (String c (String.append p s)))
    with (if String.prefix (String c p) (String c (String.append p s))
          then String.append EmptyString
                 (Py.replace_from (String c p) EmptyString
                    (Nat.pred (String.length (String c p)))
                    (String.append p s))
          else String c (Py.replace_from (String c p) EmptyString O
                           (String.append p s))).
  rewrite <- append_cons, prefix_append. rewrite append_empty_l.
  apply replace_from_skip.
Qed.

Lemma replace_absent (old new s : string) :
  Py.contains old s = false -> Py.replace s old new = s.
Proof.
  unfold Py.replace. induction s as [|c s IH]; intros H; [reflexivity|].
  change (Py.contains old (String c s))
    with (String.prefix old (String c s) || Py.contains old s) in H.
  apply orb_false_iff in H as [Hp Hc].
  change (Py.replace_from old new O (String c s))
    with (if String.prefix old (String c s)
          then String.append new
                 (Py.replace_from old new (Nat.pred (String.length old)) s)
          else String c (Py.replace_from old new O s)).
  rewrite Hp, (IH Hc). reflexivity.
Qed.

(** A string none of whose characters is the first of [old] holds no
    occurrence of [old]. *)
Lemma contains_first_char (p : ascii -> bool) (c : ascii) (old s : string) :
  p c = false -> all_chars p s = true ->
  Py.contains (String c old) s = false.
Proof.
  intros Hc. induction s as [|d s IH]; intros H; [reflexivity|].
  simpl in H. apply andb_true_iff in H as [Hd Hs].
  change (Py.contains (String c old) (String d s))
    with (String.prefix (String c old) (String d s)
          || Py.contains (String c old) s).
  rewrite (IH Hs), orb_false_r. simpl.
  destruct (Ascii.ascii_dec c d) as [->|_]; [congruence | reflexivity].
Qed.

Lemma rstrip_no_space (s : string) :
  all_chars (fun c => negb (Py.is_space c)) s = true -> Py.rstrip s = s.
Proof.
  induction s as [|c s IH]; intros H; [reflexivity|].
  simpl in H. apply andb_true_iff in H as [Hc Hs].
  simpl. rewrite (IH Hs). apply negb_true_iff in Hc. rewrite Hc.
  destruct s; reflexivity.
Qed.

Lemma strip_no_space (s : string) :
  all_chars (fun c => negb (Py.is_space c)) s = true -> Py.strip s = s.
Proof.
  intros H. unfold Py.strip.
  replace (Py.lstrip s) with s; [apply rstrip_no_space; exact H|].
  destruct s as [|c s]; [reflexivity|].
  simpl in H. apply andb_true_iff in H as [Hc _].
  apply negb_true_iff in Hc. simpl. rewrite Hc. reflexivity.
Qed.

Lemma all_chars_impl (p q : ascii -> bool) (s : string) :
  (forall c, p c = true -> q c = true) ->
  all_chars p s = true -> all_chars q s = true.
Proof.
  intros Hpq. induction s as [|c s IH]; intros H; [reflexivity|].
  simpl in *. apply andb_true_iff in H as [Hc Hs].
  rewrite (Hpq c Hc), (IH Hs). reflexivity.
Qed.

Lemma all_chars_append (p : ascii -> bool) (s t : string) :
  all_chars p (String.append s t) = all_chars p s && all_chars p t.
Proof.
  induction s as [|c s IH]; [reflexivity|].
  rewrite append_cons. simpl. rewrite IH, andb_assoc. reflexivity.
Qed.

Lemma splitlines_from_cons (line : string) (skip_lf : bool) (c : ascii)
    (s : string) :
  Py.splitlines_from line skip_lf (String c s)
  = if skip_lf && Ascii.eqb c Py.LF
    then Py.splitlines_from EmptyString false s
    else if Py.is_linebreak c
         then line :: Py.splitlines_from EmptyString (Ascii.eqb c Py.CR) s
         else Py.splitlines_from (String.append line (String c EmptyString))
                false s.
Proof. reflexivity. Qed.

(** A line with no boundary in it, followed by LF, is the next line. *)
Lemma splitlines_line (line s rest : string) :
  single_line s = true ->
  Py.splitlines_from line false (String.append s (String.append nl rest))
  = String.append line s :: Py.splitlines_from EmptyString false rest.
Proof.
  revert line. induction s as [|c s IH]; intros line H.
  - rewrite append_empty_l, append_empty_r. reflexivity.
  - simpl in H. apply andb_true_iff in H as [Hc Hs].
    apply negb_true_iff in Hc.
    rewrite append_cons, splitlines_from_cons, Hc. cbv beta iota.
    simpl andb. cbv iota. rewrite (IH _ Hs), append_assoc. reflexivity.
Qed.

(** ** Integers and their decimal text *)

Lemma digit_char_spec (d : Z) :
  0 <= d <= 9 ->
  Py.is_digit (Py.digit_char d) = true /\
  Py.digit_value (Py.digit_char d) = d.
Proof.
  intros H.
  assert (Hd : d = 0 \/ d = 1 \/ d = 2 \/ d = 3 \/ d = 4 \/ d = 5 \/ d = 6
               \/ d = 7 \/ d = 8 \/ d = 9) by lia.
  repeat (destruct Hd as [->|Hd]; [split; reflexivity|]).
  subst d. split; reflexivity.
Qed.

Lemma parse_digits_digit (c : ascii) (s : string) (acc : Z) (b : bool) :
  Py.is_digit c = true ->
  Py.parse_digits (String c s) acc b
  = Py.parse_digits s (10 * acc + Py.digit_value c) true.
Proof. intros H. simpl. rewrite H. reflexivity. Qed.

Lemma mod10_digit (n : Z) : 0 <= n mod 10 <= 9.
Proof. pose proof (Z.mod_pos_bound n 10). lia. Qed.

Lemma str_digits_parse (f : nat) (n : Z) (rest : string) (b : bool) :
  0 <= n < 2 ^ (Z.of_nat f + 1) ->
  Py.parse_digits (Py.str_digits f n rest) 0 b
  = Py.parse_digits rest n true.
Proof.
  revert n rest b. induction f as [|f IH]; intros n rest b Hn.
  - simpl in Hn. simpl Py.str_digits.
    destruct (digit_char_spec (n mod 10) (mod10_digit n)) as [Hd Hv].
    rewrite (parse_digits_digit _ _ _ _ Hd), Hv.
    rewrite Z.mod_small by lia. reflexivity.
  - simpl Py.str_digits.
    destruct (digit_char_spec (n mod 10) (mod10_digit n)) as [Hd Hv].
    destruct (Z.ltb_spec n 10) as [Hlt|Hge].
    + rewrite (parse_digits_digit _ _ _ _ Hd), Hv.
      rewrite Z.mod_small by lia. reflexivity.
    + rewrite IH.
      * rewrite (parse_digits_digit _ _ _ _ Hd), Hv.
        f_equal. pose proof (Z.div_mod n 10). lia.
      * replace (Z.of_nat (S f) + 1) with (Z.succ (Z.of_nat f + 1)) in Hn
          by lia.
        rewrite Z.pow_succ_r in Hn by lia.
        split; [apply Z.div_pos; lia|].
        apply Z.div_lt_upper_bound; lia.
Qed.

Lemma str_digits_chars (p : ascii -> bool) (f : nat) (n : Z) (rest : string) :
  (forall c, Py.is_digit c = true -> p c = true) ->
  all_chars p rest = true ->
  all_chars p (Py.str_digits f n rest) = true.
Proof.
  intros Hp. revert n rest. induction f as [|f IH]; intros n rest Hr.
  - simpl. rewrite Hr, Hp; [reflexivity|].
    apply digit_char_spec, mod10_digit.
  - simpl Py.str_digits.
    assert (H : all_chars p (String (Py.digit_char (n mod 10)) rest) = true).
    { simpl. rewrite Hr, Hp; [reflexivity|].
      apply digit_char_spec, mod10_digit. }
    destruct (n <? 10); [exact H | apply IH; exact H].
Qed.

Lemma str_digits_head (f : nat) (n : Z) (rest : string) :
  exists c s, Py.str_digits f n rest = String c s /\ Py.is_digit c = true.
Proof.
  revert n rest. induction f as [|f IH]; intros n rest.
  - exists (Py.digit_char (n mod 10)), rest.
    split; [reflexivity | apply digit_char_spec, mod10_digit].
  - simpl Py.str_digits. destruct (n <? 10); [|apply IH].
    exists (Py.digit_char (n mod 10)), rest.
    split; [reflexivity | apply digit_char_spec, mod10_digit].
Qed.

Lemma int_digit_first (c : ascii) (s : string) :
  Py.is_digit c = true ->
  Py.int (String c s) = Py.parse_digits (String c s) 0 false.
Proof.
  destruct c as [[] [] [] [] [] [] [] []]; intros H;
    try discriminate H; reflexivity.
Qed.

Lemma log2_fuel (n : Z) :
  0 <= n -> 0 <= n < 2 ^ (Z.of_nat (Z.to_nat (Z.log2 n)) + 1).
Proof.
  intros Hn. rewrite Z2Nat.id by apply Z.log2_nonneg.
  destruct (Z.eq_dec n 0) as [->|Hz]; [simpl; lia|].
  pose proof (Z.log2_spec n ltac:(lia)) as H.
  replace (Z.log2 n + 1) with (Z.succ (Z.log2 n)) by lia. lia.
Qed.

(** [int(str(n)) == n] *)
Lemma int_str_of_int (n : Z) : Py.int (Py.str_of_int n) = Some n.
Proof.
  unfold Py.str_of_int. destruct (Z.ltb_spec n 0) as [Hneg|Hpos].
  - simpl Py.int. rewrite str_digits_parse by (apply log2_fuel; lia).
    simpl. f_equal. lia.
  - destruct (str_digits_head (Z.to_nat (Z.log2 n)) n EmptyString)
      as [c [s [Hs Hc]]].
    rewrite Hs, (int_digit_first c s Hc), <- Hs.
    rewrite str_digits_parse by (apply log2_fuel; lia). reflexivity.
Qed.

Lemma str_of_int_chars (n : Z) :
  all_chars is_int_char (Py.str_of_int n) = true.
Proof.
  assert (Hp : forall c, Py.is_digit c = true -> is_int_char c = true)
    by (intros c H; unfold is_int_char; rewrite H; reflexivity).
  unfold Py.str_of_int. destruct (n <? 0).
  - simpl. apply str_digits_chars; [exact Hp | reflexivity].
  - apply str_digits_chars; [exact Hp | reflexivity].
Qed.

(** ** Statistics *)

Lemma count_read_complete (l : library) :
  forallb is_complete l = true ->
  count_read l = Ok (Z.of_nat (length (List.filter is_read l))).
Proof.
  induction l as [|b l IH]; intros H; [reflexivity|].
  simpl in H. apply andb_true_iff in H as [Hb Hl].
  simpl count_read. rewrite (IH Hl). simpl List.filter.
  unfold is_complete in Hb. unfold is_read.
  destruct (title b), (author b), (year b), (genre b); try discriminate.
  destruct (read_status b) as [[|]|]; try discriminate; simpl rbind;
    [|reflexivity].
  f_equal. simpl length. lia.
Qed.

Lemma genres_complete (l : library) :
  forallb is_complete l = true -> genres l = Ok (map genre_of l).
Proof.
  induction l as [|b l IH]; intros H; [reflexivity|].
  simpl in H. apply andb_true_iff in H as [Hb Hl].
  simpl genres. rewrite (IH Hl). simpl map. unfold is_complete in Hb.
  destruct (title b), (author b), (year b); try discriminate.
  destruct (genre b) as [g|] eqn:Hg; [|discriminate].
  replace (genre_of b) with g by (unfold genre_of; rewrite Hg; reflexivity).
  reflexivity.
Qed.

Lemma value_counts_lookup (values : list string) (g : string) :
  value_counts values !! g
  = match occurrences g values with
    | O => None
    | S n => Some (S n)
    end.
Proof.
  unfold occurrences.
  induction values as [|v values IH]; [apply lookup_empty|].
  change (value_counts (v :: values))
    with (<[v := S (default 0%nat (value_counts values !! v))]>
            (value_counts values)).
  destruct (string_dec v g) as [->|Hne].
  - rewrite lookup_insert_eq, count_occ_cons_eq by reflexivity.
    rewrite IH. destruct (count_occ string_dec values g); reflexivity.
  - rewrite lookup_insert_ne, count_occ_cons_neq by assumption. exact IH.
Qed.

Lemma round_half_even_nearest (num den : Z) :
  0 <= num -> 0 < den ->
  2 * Z.abs (num - round_half_even num den * den) <= den.
Proof.
  intros Hn Hd. unfold round_half_even.
  pose proof (Z.div_mod num den ltac:(lia)) as Hdm.
  pose proof (Z.mod_pos_bound num den Hd) as Hr.
  destruct (Z.compare_spec (2 * (num mod den)) den) as [He|Hl|Hg].
  - destruct (Z.even (num / den)); nia.
  - nia.
  - nia.
Qed.

(** The hundredths printed for the finite float [m * 2^e] are within half a
    hundredth of its exact value. *)
Lemma hundredths_nearest (m : positive) (e : Z) :
  (0 <= e -> hundredths m e = Zpos m * 100 * 2 ^ e) /\
  (e < 0 ->
   2 * Z.abs (Zpos m * 100 - hundredths m e * 2 ^ (- e)) <= 2 ^ (- e)).
Proof.
  unfold hundredths. split; intros He.
  - destruct (Z.leb_spec 0 e); [reflexivity | lia].
  - destruct (Z.leb_spec 0 e); [lia|].
    apply round_half_even_nearest; [lia|].
    apply Z.pow_pos_nonneg; lia.
Qed.

(** *** The binary64 operations of the percentage *)

(** The quotient [read_books / total_books] and the product by 100 are
    [SFdiv] and [SFmul] of the standard library's specification of
    IEEE 754; what follows derives, from their definitions, how far each
    result lies from the exact value. *)

(** [digits2_pos p] is the number of binary digits of [p]. *)
Lemma digits2_pos_bounds (p : positive) :
  2 ^ (Zpos (digits2_pos p) - 1) <= Zpos p < 2 ^ Zpos (digits2_pos p).
Proof.
  induction p as [p IH|p IH|]; simpl digits2_pos.
  - rewrite Pos2Z.inj_succ.
    replace (Z.succ (Zpos (digits2_pos p)) - 1) with (Zpos (digits2_pos p))
      by lia.
    rewrite Z.pow_succ_r by lia.
    assert (2 ^ Zpos (digits2_pos p) = 2 * 2 ^ (Zpos (digits2_pos p) - 1)).
    { rewrite <- Z.pow_succ_r by lia. f_equal. lia. }
    lia.
  - rewrite Pos2Z.inj_succ.
    replace (Z.succ (Zpos (digits2_pos p)) - 1) with (Zpos (digits2_pos p))
      by lia.
    rewrite Z.pow_succ_r by lia.
    assert (2 ^ Zpos (digits2_pos p) = 2 * 2 ^ (Zpos (digits2_pos p) - 1)).
    { rewrite <- Z.pow_succ_r by lia. f_equal. lia. }
    lia.
  - simpl. lia.
Qed.

Lemma digits2_pos_unique (p : positive) (k : Z) :
  2 ^ (k - 1) <= Zpos p < 2 ^ k -> Zpos (digits2_pos p) = k.
Proof.
  intros [Hlo Hhi]. pose proof (digits2_pos_bounds p) as [Dlo Dhi].
  set (d := Zpos (digits2_pos p)) in *.
  destruct (Z.lt_trichotomy d k) as [Hlt|[Heq|Hgt]]; [|exact Heq|].
  - assert (2 ^ d <= 2 ^ (k - 1)) by (apply Z.pow_le_mono_r; lia). lia.
  - assert (0 <= k).
    { destruct (Z.le_gt_cases 0 k); [assumption|].
      rewrite (Z.pow_neg_r 2 k) in Hhi by lia. lia. }
    assert (2 ^ k <= 2 ^ (d - 1)) by (apply Z.pow_le_mono_r; lia). lia.
Qed.

Lemma loc_of_shr_record_of_loc (m : Z) (l : location) :
  loc_of_shr_record (shr_record_of_loc m l) = l /\
  shr_m (shr_record_of_loc m l) = m.
Proof. destruct l as [|[| |]]; split; reflexivity. Qed.

Lemma locates_of_loc (A B : Z) :
  0 <= A -> 0 < B ->
  locates A B (shr_record_of_loc (A / B) (loc_of_rem (A mod B) B)).
Proof.
  intros HA HB. unfold locates.
  destruct (loc_of_shr_record_of_loc (A / B) (loc_of_rem (A mod B) B))
    as [Hl Hm].
  repeat split; assumption.
Qed.

(** One shift to the right halves the value that the register locates. *)
Lemma shr_1_locates (A B : Z) (mrs : shr_record) :
  locates A B mrs -> locates A (2 * B) (shr_1 mrs).
Proof.
  intros (HA & HB & Hm & Hl).
  pose proof (Z.div_mod A B ltac:(lia)) as Hdm.
  pose proof (Z.mod_pos_bound A B HB) as Hr.
  assert (Hq : 0 <= A / B) by (apply Z.div_pos; lia).
  assert (Hdiv : forall h bit,
             A / B = 2 * h + bit -> 0 <= bit <= 1 ->
             A / (2 * B) = h /\ A mod (2 * B) = bit * B + A mod B).
  { intros h bit Hq' Hb.
    assert (E : A = (2 * B) * h + (bit * B + A mod B)) by nia.
    assert (R : 0 <= bit * B + A mod B < 2 * B) by nia.
    split; symmetry.
    - apply (Z.div_unique A (2 * B) h (bit * B + A mod B)); [lia|exact E].
    - apply (Z.mod_unique A (2 * B) h (bit * B + A mod B)); [lia|exact E]. }
  destruct mrs as [m r s]. simpl in Hm, Hl.
  assert (Hloc0 : A / B = 2 * (A / (2 * B)) ->
                  loc_of_shr_record (Build_shr_record (A / (2 * B)) false (r || s))
                  = loc_of_rem (A mod (2 * B)) (2 * B)).
  { intros E. destruct (Hdiv (A / (2 * B)) 0 ltac:(lia) ltac:(lia)) as [_ ->].
    unfold loc_of_rem in *. rewrite Z.mul_0_l, Z.add_0_l.
    destruct (Z.eqb_spec (A mod B) 0) as [Hz|Hz].
    - destruct r, s; try discriminate. reflexivity.
    - assert ((2 * (A mod B) ?= 2 * B) = Lt) as -> by (apply Z.compare_lt_iff; lia).
      destruct r, s; try discriminate; reflexivity. }
  assert (Hloc1 : A / B = 2 * (A / (2 * B)) + 1 ->
                  loc_of_shr_record (Build_shr_record (A / (2 * B)) true (r || s))
                  = loc_of_rem (A mod (2 * B)) (2 * B)).
  { intros E. destruct (Hdiv (A / (2 * B)) 1 ltac:(lia) ltac:(lia)) as [_ ->].
    unfold loc_of_rem in *.
    destruct (Z.eqb_spec (1 * B + A mod B) 0) as [Hz|Hz]; [lia|].
    destruct (Z.eqb_spec (A mod B) 0) as [Hz'|Hz'].
    - assert ((2 * (1 * B + A mod B) ?= 2 * B) = Eq) as ->
          by (apply Z.compare_eq_iff; lia).
      destruct r, s; try discriminate. reflexivity.
    - assert ((2 * (1 * B + A mod B) ?= 2 * B) = Gt) as ->
          by (apply Z.compare_gt_iff; lia).
      destruct r, s; try discriminate; reflexivity. }
  unfold locates. split; [exact HA|]. split; [lia|].
  destruct m as [|[p|p|]|p]; simpl shr_1; simpl shr_m.
  - destruct (Hdiv 0 0 ltac:(lia) ltac:(lia)) as [Hh _].
    split; [lia|]. rewrite <- Hh. apply Hloc0. lia.
  - destruct (Hdiv (Zpos p) 1 ltac:(lia) ltac:(lia)) as [Hh _].
    split; [lia|]. rewrite <- Hh. apply Hloc1. lia.
  - destruct (Hdiv (Zpos p) 0 ltac:(lia) ltac:(lia)) as [Hh _].
    split; [lia|]. rewrite <- Hh. apply Hloc0. lia.
  - destruct (Hdiv 0 1 ltac:(lia) ltac:(lia)) as [Hh _].
    split; [lia|]. rewrite <- Hh. apply Hloc1. lia.
  - lia.
Qed.

Lemma iter_pos_shr_1_locates (p : positive) :
  forall A B mrs,
    locates A B mrs -> locates A (B * 2 ^ Zpos p) (SpecFloat.iter_pos shr_1 p mrs).
Proof.
  induction p as [p IH|p IH|]; intros A B mrs H; simpl SpecFloat.iter_pos.
  - apply shr_1_locates in H. apply IH in H. apply IH in H.
    replace (B * 2 ^ Zpos p~1) with (2 * B * 2 ^ Zpos p * 2 ^ Zpos p);
      [exact H|].
    assert (E : 2 ^ Zpos p~1 = 2 * (2 ^ Zpos p * 2 ^ Zpos p)).
    { rewrite <- Z.pow_add_r, <- Z.pow_succ_r by lia. f_equal. lia. }
    rewrite E. ring.
  - apply IH in H. apply IH in H.
    replace (B * 2 ^ Zpos p~0) with (B * 2 ^ Zpos p * 2 ^ Zpos p);
      [exact H|].
    assert (E : 2 ^ Zpos p~0 = 2 ^ Zpos p * 2 ^ Zpos p).
    { rewrite <- Z.pow_add_r by lia. f_equal. lia. }
    rewrite E. ring.
  - apply shr_1_locates in H. replace (B * 2 ^ 1) with (2 * B) by lia.
    exact H.
Qed.

Lemma shr_locates (A B : Z) (mrs : shr_record) (e n : Z) :
  0 <= n -> locates A B mrs ->
  locates A (B * 2 ^ n) (fst (shr mrs e n)) /\ snd (shr mrs e n) = e + n.
Proof.
  intros Hn H. destruct n as [|p|p]; simpl shr.
  - split; [|simpl; lia]. simpl fst. rewrite Z.mul_1_r. exact H.
  - split; [|reflexivity]. apply iter_pos_shr_1_locates. exact H.
  - lia.
Qed.

(** Rounding to nearest, ties to even, goes to an integer next to the value
    and within a half of it. *)
Lemma round_nearest_even_locates (A B : Z) (mrs : shr_record) :
  locates A B mrs ->
  2 * Z.abs (round_nearest_even (shr_m mrs) (loc_of_shr_record mrs) * B - A)
  <= B /\
  A / B <= round_nearest_even (shr_m mrs) (loc_of_shr_record mrs)
        <= A / B + 1.
Proof.
  intros (HA & HB & Hm & Hl). rewrite Hm, Hl.
  pose proof (Z.div_mod A B ltac:(lia)) as Hdm.
  pose proof (Z.mod_pos_bound A B HB) as Hr.
  unfold loc_of_rem, round_nearest_even.
  destruct (Z.eqb_spec (A mod B) 0) as [Hz|Hz]; [nia|].
  destruct (Z.compare_spec (2 * (A mod B)) B) as [He|Hlt|Hgt].
  - destruct (Z.even (A / B)); nia.
  - nia.
  - nia.
Qed.

(** Rounding a positive value [A / B * 2^ex] that needs no subnormal and
    does not overflow. *)
Lemma binary_round_aux_normal (sx : bool) (A B ex : Z) :
  0 <= A -> 0 < B ->
  53 <= Zdigits2 (A / B) ->
  -1074 <= ex + Zdigits2 (A / B) - 53 ->
  ex + Zdigits2 (A / B) <= 1023 ->
  exists m n,
    binary_round_aux prec emax sx (A / B) ex (loc_of_rem (A mod B) B)
    = S754_finite sx m (ex + n) /\
    Zdigits2 (A / B) - 53 <= n <= Zdigits2 (A / B) - 52 /\
    2 ^ 52 <= Zpos m < 2 ^ 53 /\
    2 * Z.abs (Zpos m * 2 ^ n * B - A) <= 2 ^ n * B.
Proof.
  intros HA HB Hd Hlo Hhi.
  assert (Hmx : 2 ^ (Zdigits2 (A / B) - 1) <= A / B
                < 2 ^ Zdigits2 (A / B)).
  { pose proof (Z.div_pos A B HA HB) as Hq.
    destruct (A / B) as [|p|p]; simpl in Hd |- *; try lia.
    apply digits2_pos_bounds. }
  set (mx := A / B) in *. set (d := Zdigits2 mx) in *.
  set (n1 := d - 53).
  assert (Hn1 : fexp prec emax (d + ex) - ex = n1)
    by (unfold fexp, emin, prec, emax, n1; lia).
  unfold binary_round_aux, shr_fexp. fold d. rewrite Hn1.
  destruct (shr_locates A B (shr_record_of_loc mx (loc_of_rem (A mod B) B))
              ex n1 ltac:(unfold n1; lia) (locates_of_loc A B HA HB))
    as [Hloc He'].
  destruct (shr (shr_record_of_loc mx (loc_of_rem (A mod B) B)) ex n1)
    as [mrs' e'].
  simpl in Hloc, He'. subst e'.
  destruct (round_nearest_even_locates _ _ _ Hloc) as [Hnear Hbnd].
  set (m1 := round_nearest_even (shr_m mrs') (loc_of_shr_record mrs')) in *.
  assert (Hp : 0 < 2 ^ n1) by (apply Z.pow_pos_nonneg; unfold n1; lia).
  assert (Hsplit : 2 ^ (d - 1) = 2 ^ 52 * 2 ^ n1 /\ 2 ^ d = 2 ^ 53 * 2 ^ n1).
  { split; rewrite <- Z.pow_add_r by (unfold n1; lia); f_equal;
      unfold n1; lia. }
  destruct Hsplit as [S1 S2].
  assert (Hq : 2 ^ 52 <= A / (B * 2 ^ n1) < 2 ^ 53).
  { rewrite <- Z.div_div by lia. fold mx. split.
    - apply Z.div_le_lower_bound; lia.
    - apply Z.div_lt_upper_bound; lia. }
  assert (Hm1 : 2 ^ 52 <= m1 <= 2 ^ 53) by lia.
  destruct (Z.eq_dec m1 (2 ^ 53)) as [Heq|Hne].
  - rewrite Heq.
    assert (Hn2 : fexp prec emax (Zdigits2 (2 ^ 53) + (ex + n1)) - (ex + n1) = 1).
    { change (Zdigits2 (2 ^ 53)) with 54.
      unfold fexp, emin, prec, emax, n1. lia. }
    rewrite Hn2. simpl shr.
    assert (Hle : (ex + n1 + 1 <=? emax - prec) = true)
      by (apply Z.leb_le; unfold emax, prec, n1; lia).
    change (shr_m (shr_1 (shr_record_of_loc (2 ^ 53) loc_Exact)))
      with (Zpos (2 ^ 52)%positive).
    cbv beta iota. rewrite Hle.
    exists (2 ^ 52)%positive, (n1 + 1).
    split; [f_equal; lia|]. split; [unfold n1; lia|].
    split; [change (Zpos (2 ^ 52)%positive) with (2 ^ 52); lia|].
    change (Zpos (2 ^ 52)%positive) with (2 ^ 52).
    rewrite Z.pow_add_r by (unfold n1; lia). change (2 ^ 1) with 2.
    rewrite Heq in Hnear. change (2 ^ 53) with (2 ^ 52 * 2) in Hnear.
    replace (2 ^ 52 * (2 ^ n1 * 2) * B - A)
      with (2 ^ 52 * 2 * (B * 2 ^ n1) - A) by ring.
    nia.
  - destruct m1 as [|p|p] eqn:E; try lia.
    assert (Hdig : Zdigits2 (Zpos p) = 53).
    { simpl. apply digits2_pos_unique. change (53 - 1) with 52. lia. }
    rewrite Hdig.
    assert (Hn2 : fexp prec emax (53 + (ex + n1)) - (ex + n1) = 0)
      by (unfold fexp, emin, prec, emax, n1; lia).
    rewrite Hn2. simpl shr. cbn [shr_m].
    assert (Hle : (ex + n1 <=? emax - prec) = true)
      by (apply Z.leb_le; unfold emax, prec, n1; lia).
    rewrite Hle. exists p, n1.
    split; [reflexivity|]. split; [unfold n1; lia|]. split; [lia|].
    replace (Zpos p * 2 ^ n1 * B - A) with (Zpos p * (B * 2 ^ n1) - A) by ring.
    lia.
Qed.

Lemma Zdigits2_le (z k : Z) : 0 < z -> z < 2 ^ k -> Zdigits2 z <= k.
Proof.
  intros Hz Hk. destruct z as [|p|p]; try lia. simpl.
  pose proof (digits2_pos_bounds p) as [Dlo _].
  destruct (Z.le_gt_cases 0 k) as [Hk0|Hk0].
  - destruct (Z.le_gt_cases (Zpos (digits2_pos p)) k) as [|Hgt];
      [assumption|].
    assert (2 ^ k <= 2 ^ (Zpos (digits2_pos p) - 1))
      by (apply Z.pow_le_mono_r; lia).
    lia.
  - rewrite (Z.pow_neg_r 2 k) in Hk by lia. lia.
Qed.

Lemma Zdigits2_gt (z k : Z) : 0 <= k -> 2 ^ k <= z -> k < Zdigits2 z.
Proof.
  intros Hk Hz.
  assert (0 < 2 ^ k) by (apply Z.pow_pos_nonneg; lia).
  destruct z as [|p|p]; try lia. simpl.
  pose proof (digits2_pos_bounds p) as [_ Dhi].
  destruct (Z.le_gt_cases (Zpos (digits2_pos p)) k) as [Hle|]; [|assumption].
  assert (2 ^ Zpos (digits2_pos p) <= 2 ^ k)
    by (apply Z.pow_le_mono_r; lia).
  lia.
Qed.

Lemma pos_iter_xO (p k : positive) :
  Zpos (Pos.iter xO p k) = Zpos p * 2 ^ Zpos k.
Proof.
  induction k as [|k IH] using Pos.peano_ind.
  - simpl. lia.
  - rewrite Pos.iter_succ, Pos2Z.inj_succ, Z.pow_succ_r by lia.
    rewrite Pos2Z.inj_xO, IH. ring.
Qed.

Lemma binary_round_aux_exact (sx : bool) (m : positive) (e : Z) :
  Zpos (digits2_pos m) = 53 -> -1074 <= e <= 971 ->
  binary_round_aux prec emax sx (Zpos m) e loc_Exact = S754_finite sx m e.
Proof.
  intros Hd He.
  assert (Hn : fexp prec emax (Zdigits2 (Zpos m) + e) - e = 0).
  { simpl Zdigits2. rewrite Hd. unfold fexp, emin, prec, emax. lia. }
  unfold binary_round_aux, shr_fexp. rewrite Hn. simpl shr.
  cbn [shr_m loc_of_shr_record round_nearest_even]. rewrite Hn. simpl shr.
  cbn [shr_m].
  assert (Hle : (e <=? emax - prec) = true)
    by (apply Z.leb_le; unfold emax, prec; lia).
  rewrite Hle. reflexivity.
Qed.

(** [float(n)] is exact for a positive [n] below [2^53]. *)
Lemma float_of_int_pos (n : Z) :
  0 < n < 2 ^ 53 ->
  exists m a,
    float_of_int n = S754_finite false m (- a) /\
    0 <= a <= 52 /\ a = 53 - Zdigits2 n /\
    2 ^ 52 <= Zpos m < 2 ^ 53 /\ Zpos m = n * 2 ^ a.
Proof.
  intros [H0 H53]. destruct n as [|p|p]; try lia.
  pose proof (digits2_pos_bounds p) as [Dlo Dhi].
  pose proof (Zdigits2_le (Zpos p) 53 ltac:(lia) H53) as Hd. simpl in Hd.
  unfold float_of_int, binary_normalize, binary_round.
  set (d := Zpos (digits2_pos p)) in *.
  assert (Hf : fexp prec emax (d + 0) = d - 53)
    by (unfold fexp, emin, prec, emax; lia).
  rewrite Hf. unfold shl_align.
  destruct (d - 53 - 0) as [|k|k] eqn:E; try lia.
  - assert (Hd53 : d = 53) by lia.
    rewrite binary_round_aux_exact by (fold d; lia).
    exists p, 0. rewrite Hd53 in *. simpl Zdigits2. fold d. rewrite Hd53.
    repeat split; lia.
  - assert (Hm : Zpos (Pos.iter xO p k) = Zpos p * 2 ^ Zpos k)
      by apply pos_iter_xO.
    assert (Hk : Zpos k = 53 - d) by lia.
    assert (Hb : 2 ^ 52 <= Zpos (Pos.iter xO p k) < 2 ^ 53).
    { rewrite Hm, Hk.
      assert (E1 : 2 ^ 52 = 2 ^ (d - 1) * 2 ^ (53 - d))
        by (rewrite <- Z.pow_add_r by lia; f_equal; lia).
      assert (E2 : 2 ^ 53 = 2 ^ d * 2 ^ (53 - d))
        by (rewrite <- Z.pow_add_r by lia; f_equal; lia).
      assert (0 < 2 ^ (53 - d)) by (apply Z.pow_pos_nonneg; lia).
      rewrite E1, E2. nia. }
    rewrite binary_round_aux_exact;
      [|apply digits2_pos_unique; change (53 - 1) with 52; lia | lia].
    exists (Pos.iter xO p k), (53 - d).
    simpl Zdigits2. fold d.
    replace (- (53 - d)) with (d - 53) by lia.
    repeat split; try lia. rewrite Hm, Hk. reflexivity.
Qed.

(** The location that the division computes from its remainder. *)
Lemma new_location_spec (nb k : Z) :
  0 <= k < nb -> new_location nb k = loc_of_rem k nb.
Proof.
  intros Hk. unfold new_location, new_location_even, new_location_odd,
    loc_of_rem.
  destruct (Z.even nb) eqn:E; [reflexivity|].
  destruct (k =? 0); [reflexivity|]. f_equal.
  assert (Ho : Z.odd nb = true) by (rewrite <- Z.negb_even, E; reflexivity).
  apply Z.odd_spec in Ho as [c Hc].
  destruct (Z.compare_spec (2 * k + 1) nb), (Z.compare_spec (2 * k) nb);
    try reflexivity; lia.
Qed.

(** The quotient of two positive floats with 53-digit mantissas: a float
    with a 53-digit mantissa, within half a unit in its last place of the
    exact quotient. *)
Lemma SFdiv_normal (m1 m2 : positive) (e1 e2 : Z) :
  2 ^ 52 <= Zpos m1 < 2 ^ 53 -> 2 ^ 52 <= Zpos m2 < 2 ^ 53 ->
  -52 <= e1 <= 0 -> -52 <= e2 <= 0 ->
  exists m n,
    SFdiv prec emax (S754_finite false m1 e1) (S754_finite false m2 e2)
    = S754_finite false m (e1 - e2 - 53 + n) /\
    0 <= n <= 2 /\
    2 ^ 52 <= Zpos m < 2 ^ 53 /\
    2 * Z.abs (Zpos m * 2 ^ n * Zpos m2 - Zpos m1 * 2 ^ 53)
    <= 2 ^ n * Zpos m2.
Proof.
  intros H1 H2 He1 He2.
  assert (D1 : Zdigits2 (Zpos m1) = 53)
    by (simpl; apply digits2_pos_unique; change (53 - 1) with 52; lia).
  assert (D2 : Zdigits2 (Zpos m2) = 53)
    by (simpl; apply digits2_pos_unique; change (53 - 1) with 52; lia).
  unfold SFdiv, SFdiv_core_binary. rewrite D1, D2.
  assert (He' : Z.min (fexp prec emax (53 + e1 - (53 + e2))) (e1 - e2)
                = e1 - e2 - 53)
    by (unfold fexp, emin, prec, emax; lia).
  rewrite He'.
  replace (e1 - e2 - (e1 - e2 - 53)) with 53 by lia.
  rewrite Z.shiftl_mul_pow2 by lia.
  set (A := Zpos m1 * 2 ^ 53). set (B := Zpos m2).
  assert (HA : 0 <= A) by (unfold A; lia).
  assert (HB : 0 < B) by (unfold B; lia).
  pose proof (Z.mod_pos_bound A B HB) as Hr.
  assert (Hdm : Z.div_eucl A B = (A / B, A mod B)).
  { unfold Z.div, Z.modulo. destruct (Z.div_eucl A B). reflexivity. }
  rewrite Hdm, (new_location_spec B (A mod B) Hr).
  change (xorb false false) with false.
  assert (Hq : 2 ^ 52 <= A / B < 2 ^ 54).
  { split.
    - apply Z.div_le_lower_bound; [lia|]. unfold A, B. lia.
    - apply Z.div_lt_upper_bound; [lia|]. unfold A, B. lia. }
  pose proof (Zdigits2_gt (A / B) 52 ltac:(lia) (proj1 Hq)) as Dlo.
  pose proof (Zdigits2_le (A / B) 54 ltac:(lia) (proj2 Hq)) as Dhi.
  destruct (binary_round_aux_normal false A B (e1 - e2 - 53) HA HB
              ltac:(lia) ltac:(lia) ltac:(lia))
    as (m & n & Hrun & Hn & Hm & Herr).
  exists m, n. split; [exact Hrun|]. split; [lia|]. split; [exact Hm|].
  exact Herr.
Qed.

(** The product of two positive floats with 53-digit mantissas: a float
    with a 53-digit mantissa, within half a unit in its last place of the
    exact product. *)
Lemma SFmul_normal (mx my : positive) (ex ey : Z) :
  2 ^ 52 <= Zpos mx < 2 ^ 53 -> 2 ^ 52 <= Zpos my < 2 ^ 53 ->
  -500 <= ex + ey <= 500 ->
  exists m n,
    SFmul prec emax (S754_finite false mx ex) (S754_finite false my ey)
    = S754_finite false m (ex + ey + n) /\
    52 <= n <= 54 /\
    2 ^ 52 <= Zpos m < 2 ^ 53 /\
    2 * Z.abs (Zpos m * 2 ^ n - Zpos mx * Zpos my) <= 2 ^ n.
Proof.
  intros Hx Hy He. unfold SFmul. change (xorb false false) with false.
  set (A := Zpos (mx * my)).
  assert (HA : A = Zpos mx * Zpos my) by reflexivity.
  assert (Hq : 2 ^ 104 <= A < 2 ^ 106).
  { change (2 ^ 104) with (2 ^ 52 * 2 ^ 52).
    change (2 ^ 106) with (2 ^ 53 * 2 ^ 53). nia. }
  assert (Hdiv : A / 1 = A) by apply Z.div_1_r.
  assert (Hmod : A mod 1 = 0) by apply Z.mod_1_r.
  pose proof (Zdigits2_gt A 104 ltac:(lia) (proj1 Hq)) as Dlo.
  pose proof (Zdigits2_le A 106 ltac:(lia) (proj2 Hq)) as Dhi.
  destruct (binary_round_aux_normal false A 1 (ex + ey) ltac:(lia) ltac:(lia))
    as (m & n & Hrun & Hn & Hm & Herr); rewrite ?Hdiv; try lia.
  rewrite Hdiv, Hmod in Hrun. change (loc_of_rem 0 1) with loc_Exact in Hrun.
  rewrite Hdiv in Hn.
  exists m, n. split; [exact Hrun|]. split; [lia|]. split; [exact Hm|].
  rewrite <- HA. replace (Zpos m * 2 ^ n - A) with (Zpos m * 2 ^ n * 1 - A)
    by ring.
  lia.
Qed.

Lemma Zdigits2_mono (r t : Z) : 0 < r <= t -> Zdigits2 r <= Zdigits2 t.
Proof.
  intros H. apply Zdigits2_le; [lia|].
  destruct t as [|p|p]; try lia. simpl.
  pose proof (digits2_pos_bounds p). lia.
Qed.

(** The three roundings on the way from [r / t * 100] to its two decimals
    leave the printed hundredths nearest to the exact ratio. *)
Lemma three_roundings (r t Pa Pb Pn Pn' P3 mx my h : Z) :
  0 < r -> r < 2 ^ 36 -> 0 < t ->
  0 < Pa -> 0 < Pb -> 0 < Pn -> 0 < Pn' -> Pn' <= 2 ^ 54 -> 0 < P3 ->
  P3 * Pn * Pn' * Pb = Pa * 2 ^ 99 ->
  2 ^ 52 <= mx ->
  2 * Z.abs (mx * Pn * (t * Pb) - r * Pa * 2 ^ 53) <= Pn * (t * Pb) ->
  2 * Z.abs (my * Pn' - mx * (100 * 2 ^ 46)) <= Pn' ->
  2 * Z.abs (my * 100 - h * P3) <= P3 ->
  2 * Z.abs (h * t - 10000 * r) <= t.
Proof.
  intros Hr Hr36 Ht HPa HPb HPn HPn' HPn'54 HP3 HD Hmx H1 H2 H3.
  set (T := Pn * (t * Pb)) in *.
  assert (HT : 0 < T) by (unfold T; repeat apply Z.mul_pos_pos; assumption).
  set (D := Pa * 2 ^ 99) in *.
  assert (HDpos : 0 < D) by (unfold D; lia).
  set (d1 := mx * Pn * (t * Pb) - r * Pa * 2 ^ 53) in *.
  set (d2 := my * Pn' - mx * (100 * 2 ^ 46)) in *.
  set (d3 := h * P3 - my * 100).
  assert (H3' : 2 * Z.abs d3 <= P3) by (unfold d3; lia).
  assert (Hid : (h * t - 10000 * r) * D
                = d3 * (Pn' * T) + 100 * d2 * T + 100 * (100 * 2 ^ 46) * d1).
  { transitivity (h * t * (P3 * Pn * Pn' * Pb) - 10000 * r * (Pa * 2 ^ 99)).
    - rewrite HD. unfold D. ring.
    - unfold d1, d2, d3, T.
      change (2 ^ 53) with 9007199254740992.
      change (2 ^ 46) with 70368744177664.
      change (2 ^ 99) with 633825300114114700748351602688. ring. }
  assert (HDT : P3 * (Pn' * T) = D * t).
  { rewrite <- HD. unfold T. ring. }
  assert (Hd1 : mx * T = d1 + r * Pa * 2 ^ 53) by (unfold d1, T; ring).
  assert (HDa : D = Pa * 2 ^ 99) by reflexivity.
  clearbody T D d1 d2 d3. clear H3 HD.
  assert (HW : 0 < Pn' * T) by (apply Z.mul_pos_pos; assumption).
  assert (B3 : 2 * Z.abs (d3 * (Pn' * T)) <= D * t).
  { rewrite <- HDT, Z.abs_mul, (Z.abs_eq (Pn' * T)), Z.mul_assoc by lia.
    apply Z.mul_le_mono_nonneg_r; [lia | exact H3']. }
  assert (B2 : 2 * Z.abs (100 * d2 * T) <= 100 * Pn' * T).
  { rewrite Z.abs_mul, (Z.abs_eq T), Z.mul_assoc by lia.
    apply Z.mul_le_mono_nonneg_r; lia. }
  assert (B1 : 2 * Z.abs (100 * (100 * 2 ^ 46) * d1)
               <= 100 * (100 * 2 ^ 46) * T) by lia.
  assert (K0 : 2 ^ 52 * T <= mx * T)
    by (apply Z.mul_le_mono_nonneg_r; lia).
  assert (K1 : (2 ^ 53 - 1) * T <= 2 ^ 54 * (r * Pa)) by lia.
  assert (K2 : r * Pa <= (2 ^ 36 - 1) * Pa)
    by (apply Z.mul_le_mono_nonneg_r; lia).
  assert (E : 100 * Pn' * T + 100 * (100 * 2 ^ 46) * T <= 35600 * 2 ^ 46 * T).
  { replace (100 * Pn' * T + 100 * (100 * 2 ^ 46) * T)
      with ((100 * Pn' + 100 * (100 * 2 ^ 46)) * T) by ring.
    apply Z.mul_le_mono_nonneg_r; lia. }
  assert (F : 35600 * 2 ^ 46 * T * (2 ^ 53 - 1) < D * (2 ^ 53 - 1))
    by (rewrite HDa; lia).
  assert (K4 : 35600 * 2 ^ 46 * T < D)
    by (apply (Z.mul_lt_mono_pos_r (2 ^ 53 - 1)); lia).
  assert (Hfin : 2 * Z.abs ((h * t - 10000 * r) * D) < (t + 1) * D).
  { rewrite Hid.
    pose proof (Z.abs_triangle (d3 * (Pn' * T) + 100 * d2 * T)
                  (100 * (100 * 2 ^ 46) * d1)).
    pose proof (Z.abs_triangle (d3 * (Pn' * T)) (100 * d2 * T)).
    lia. }
  rewrite Z.abs_mul, (Z.abs_eq D), Z.mul_assoc in Hfin by lia.
  apply Z.mul_lt_mono_pos_r in Hfin; lia.
Qed.

Lemma float_of_int_100 :
  float_of_int 100 = S754_finite false 7036874417766400 (-46).
Proof. reflexivity. Qed.

(** For fewer than [2^36] books of which some are read, the percentage is a
    plain finite float, and its two decimals are nearest to the exact
    ratio. *)
Lemma float_percentage_nearest (r t : Z) :
  0 < r <= t -> t < 2 ^ 36 ->
  exists m e,
    float_mul_int (true_div r t) 100 = S754_finite false m e /\
    2 * Z.abs (hundredths m e * t - 10000 * r) <= t.
Proof.
  intros Hr Ht.
  destruct (float_of_int_pos r ltac:(lia))
    as (m1 & a & Hf1 & Ha & Hda & Hm1 & Hv1).
  destruct (float_of_int_pos t ltac:(lia))
    as (m2 & b & Hf2 & Hb & Hdb & Hm2 & Hv2).
  pose proof (Zdigits2_mono r t ltac:(lia)) as Hmono.
  unfold float_mul_int, true_div. rewrite Hf1, Hf2, float_of_int_100.
  destruct (SFdiv_normal m1 m2 (- a) (- b) Hm1 Hm2 ltac:(lia) ltac:(lia))
    as (mx & n & Hdiv & Hn & Hmx & Herr1).
  rewrite Hdiv.
  destruct (SFmul_normal mx 7036874417766400 (- a - - b - 53 + n) (-46) Hmx
              ltac:(lia) ltac:(lia))
    as (my & n' & Hmul & Hn' & Hmy & Herr2).
  rewrite Hmul. exists my, (- a - - b - 53 + n + -46 + n').
  split; [reflexivity|].
  set (ey := - a - - b - 53 + n + -46 + n').
  assert (Hey : ey < 0) by (unfold ey; lia).
  unfold hundredths. destruct (Z.leb_spec 0 ey) as [|_]; [lia|].
  pose proof (round_half_even_nearest (Zpos my * 100) (2 ^ (- ey))
                ltac:(lia) ltac:(apply Z.pow_pos_nonneg; lia)) as Herr3.
  set (h := round_half_even (Zpos my * 100) (2 ^ (- ey))) in *.
  apply (three_roundings r t (2 ^ a) (2 ^ b) (2 ^ n) (2 ^ n') (2 ^ (- ey))
           (Zpos mx) (Zpos my) h); try lia;
    try (apply Z.pow_pos_nonneg; lia).
  - apply Z.pow_le_mono_r; lia.
  - rewrite <- !Z.pow_add_r by lia. f_equal. unfold ey. lia.
Qed.

(** The percentage of a catalog of fewer than [2^36] books. *)
Lemma percentage_read_nearest (r t : Z) :
  0 <= r <= t -> 0 < t < 2 ^ 36 ->
  exists h, format_2f (percentage_read r t) = fixed2 false h /\
            nearest_hundredths h r t.
Proof.
  intros Hr Ht. unfold percentage_read, nearest_hundredths.
  destruct (Z.gtb_spec t 0) as [_|]; [|lia].
  destruct (Z.eq_dec r 0) as [->|Hr0].
  - destruct (float_of_int_pos t ltac:(lia)) as (m2 & b & Hf2 & _).
    unfold float_mul_int, true_div. rewrite Hf2, float_of_int_100.
    exists 0. split; [reflexivity | lia].
  - destruct (float_percentage_nearest r t ltac:(lia) ltac:(lia))
      as (m & e & Hf & Hn).
    rewrite Hf. exists (hundredths m e). split; [reflexivity | exact Hn].
Qed.

Lemma nearest_hundredths_bounds (h r t : Z) :
  0 <= r <= t -> 0 < t -> nearest_hundredths h r t -> 0 <= h <= 10000.
Proof.
  unfold nearest_hundredths. intros Hr Ht H. split.
  - destruct (Z.le_gt_cases 0 h) as [|Hneg]; [assumption|].
    assert (h * t <= -1 * t) by (apply Z.mul_le_mono_nonneg_r; lia). lia.
  - destruct (Z.le_gt_cases h 10000) as [|Hbig]; [assumption|].
    assert (10001 * t <= h * t) by (apply Z.mul_le_mono_nonneg_r; lia). lia.
Qed.

(** *** The text of the percentage *)

Lemma point_split_append (s f : string) :
  all_chars (fun c => negb (Ascii.eqb c ".")) s = true ->
  point_split (String.append s (String "." f)) = Some (s, f).
Proof.
  induction s as [|c s IH]; intros H; [reflexivity|].
  simpl in H. apply andb_true_iff in H as [Hc Hs].
  apply negb_true_iff in Hc.
  rewrite append_cons. cbn [point_split]. rewrite Hc, (IH Hs). reflexivity.
Qed.

Lemma two_digits_table :
  forallb (fun k =>
             (String.length (two_digits (Z.of_nat k)) =? 2)%nat &&
             match Py.parse_digits (two_digits (Z.of_nat k)) 0 false with
             | Some v => v =? Z.of_nat k
             | None => false
             end)
          (seq 0 100) = true.
Proof. vm_compute. reflexivity. Qed.

Lemma two_digits_spec (n : Z) :
  0 <= n < 100 ->
  String.length (two_digits n) = 2%nat /\
  Py.parse_digits (two_digits n) 0 false = Some n.
Proof.
  intros Hn. pose proof two_digits_table as H.
  rewrite List.forallb_forall in H. specialize (H (Z.to_nat n)).
  rewrite Z2Nat.id in H by lia.
  assert (Hin : In (Z.to_nat n) (seq 0 100)) by (apply in_seq; lia).
  apply H, andb_true_iff in Hin as [Hlen Hval].
  apply Nat.eqb_eq in Hlen. split; [exact Hlen|].
  destruct (Py.parse_digits (two_digits n) 0 false) as [v|]; [|discriminate].
  apply Z.eqb_eq in Hval. congruence.
Qed.

Lemma parse_digits_str_of_int (n : Z) :
  0 <= n -> Py.parse_digits (Py.str_of_int n) 0 false = Some n.
Proof.
  intros Hn. unfold Py.str_of_int. destruct (Z.ltb_spec n 0); [lia|].
  rewrite str_digits_parse by (apply log2_fuel; lia). reflexivity.
Qed.

(** The text that [.2f] makes of [h] hundredths reads back as [h]. *)
Lemma decimal_hundredths_fixed2 (h : Z) :
  0 <= h -> decimal_hundredths (fixed2 false h) = Some h.
Proof.
  intros Hh. unfold decimal_hundredths, fixed2.
  rewrite append_empty_l, point_split_append.
  - rewrite parse_digits_str_of_int by (apply Z.div_pos; lia).
    destruct (two_digits_spec (h mod 100)) as [Hlen Hval];
      [apply Z.mod_pos_bound; lia|].
    rewrite Hval, Hlen. cbn [Nat.eqb]. f_equal.
    pose proof (Z.div_mod h 100 ltac:(lia)). lia.
  - apply (all_chars_impl is_int_char); [|apply str_of_int_chars].
    intros c Hc.
    destruct (Ascii.eqb_spec c ".") as [->|_]; [discriminate Hc|reflexivity].
Qed.

(** C5.  For every catalog of complete books, [display_statistics] shows
    the length of the catalog as the total and, as the percentage,
    [read_books / total_books * 100] printed with two decimals, where
    [read_books] is the number of books whose [read_status] is true; with
    no book the percentage is 0.00 and nothing is divided.  The percentage
    is computed in binary64, where the quotient, the product and the two
    decimals are each rounded: printing rounds the finite value to a
    nearest hundredth, and for a catalog of fewer than [2^36] books the
    three roundings together give hundredths [h] nearest to the exact ratio
    [100 * read_books / total_books], which the text shown spells out with
    two decimals.  The genre counts map each genre to the number of books
    that carry it. *)
Theorem display_statistics_summary (l : library) (w : world) :
  forallb is_complete l = true ->
  let total := Z.of_nat (length l) in
  let read_count := Z.of_nat (length (List.filter is_read l)) in
  let percent_read := format_2f (percentage_read read_count total) in
  let genre_histogram := value_counts (map genre_of l) in
  display_statistics l w
  = (Ok tt,
     rendering
       ([metric "Total Books" (Py.str_of_int total);
         metric "Percentage Read" (String.append percent_read "%")]
        ++ match l with
           | [] => [info AddBooksToSeeStatistics]
           | _ :: _ => [bar_chart genre_histogram]
           end) w) /\
  (total = 0 -> percent_read = "0.00") /\
  (forall s m e,
     percentage_read read_count total = Float (S754_finite s m e) ->
     percent_read = fixed2 s (hundredths m e) /\
     (0 <= e -> hundredths m e = Zpos m * 100 * 2 ^ e) /\
     (e < 0 ->
      2 * Z.abs (Zpos m * 100 - hundredths m e * 2 ^ (- e)) <= 2 ^ (- e))) /\
  (0 < total < 2 ^ 36 ->
   exists h, 0 <= h <= 10000 /\
             nearest_hundredths h read_count total /\
             percent_read = fixed2 false h /\
             decimal_hundredths percent_read = Some h) /\
  (forall g,
     genre_histogram !! g
     = match occurrences g (map genre_of l) with
       | O => None
       | S n => Some (S n)
       end).
Proof.
  intros Hl total read_count percent_read genre_histogram.
  split; [|split; [|split; [|split]]].
  - unfold display_statistics, bind, lift.
    rewrite (count_read_complete l Hl). fold read_count total.
    fold percent_read. cbv beta iota.
    rewrite show_run. cbv beta iota.
    rewrite show_run, rendering_rendering. cbv beta iota.
    destruct l as [|b l'].
    + rewrite show_run, rendering_rendering. reflexivity.
    + rewrite (genres_complete _ Hl). cbv beta iota.
      rewrite show_run, rendering_rendering. reflexivity.
  - intros H. unfold percent_read. rewrite H. destruct read_count; reflexivity.
  - intros s m e H. unfold percent_read. rewrite H.
    split; [reflexivity | apply hundredths_nearest].
  - intros Ht.
    assert (Hr : 0 <= read_count <= total).
    { unfold read_count, total.
      pose proof (List.filter_length_le is_read l). lia. }
    destruct (percentage_read_nearest read_count total Hr Ht)
      as (h & Htext & Hnear).
    pose proof (nearest_hundredths_bounds h read_count total Hr
                  ltac:(lia) Hnear) as Hh.
    exists h. split; [exact Hh|]. split; [exact Hnear|].
    split; [exact Htext|].
    unfold percent_read. rewrite Htext.
    apply decimal_hundredths_fixed2. lia.
  - intros g. apply value_counts_lookup.
Qed.

Lemma display_statistics_summary_witness :
  forallb is_complete [Dune; Foundation] = true /\
  display_statistics [Dune; Foundation] world0
  = (Ok tt,
     rendering
       [metric "Total Books" "2"; metric "Percentage Read" "50.00%";
        bar_chart {[ "Sci-Fi" := 2%nat ]}] world0).
Proof.
  split; [reflexivity|].
  rewrite (proj1 (display_statistics_summary [Dune; Foundation] world0
                    eq_refl)).
  vm_compute. reflexivity.
Defined.

(** ** The text codec *)

Lemma file_write_write (t1 t2 : string) (f : option string) :
  file_write t2 (file_write t1 f) = file_write (String.append t1 t2) f.
Proof. destruct f; simpl; [rewrite append_assoc|]; reflexivity. Qed.

Lemma export_book_run (b : book) (w : world) :
  is_complete b = true ->
  export_book b w
  = (Ok tt, mkWorld (library_json w)
              (file_write (unlines (record_lines b)) (library_txt w))
              (confirm_clear w) (page w)).
Proof.
  unfold is_complete, export_book, record_lines.
  destruct (title b), (author b), (year b), (genre b), (read_status b);
    try discriminate.
  intros _. unfold bind, lift, write_txt, put_library_txt. simpl.
  rewrite !file_write_write. rewrite !append_assoc. reflexivity.
Qed.

Lemma unlines_app (l1 l2 : list string) :
  unlines (l1 ++ l2) = String.append (unlines l1) (unlines l2).
Proof.
  induction l1 as [|x l1 IH]; [reflexivity|].
  simpl. rewrite IH, !append_assoc. reflexivity.
Qed.

Lemma for_each_export_book (c : library) (w : world) :
  forallb is_complete c = true ->
  for_each export_book c w
  = (Ok tt, mkWorld (library_json w) (file_write (encode c) (library_txt w))
              (confirm_clear w) (page w)).
Proof.
  revert w. induction c as [|b c IH]; intros w H.
  - destruct w as [j [t|] cc p]; simpl; [rewrite append_empty_r|];
      reflexivity.
  - simpl in H. apply andb_true_iff in H as [Hb Hc].
    simpl for_each. unfold bind. rewrite (export_book_run b w Hb), (IH _ Hc).
    simpl. rewrite file_write_write. unfold encode. simpl flat_map.
    rewrite unlines_app. reflexivity.
Qed.

Lemma export_library_run (c : library) (w : world) :
  forallb is_complete c = true ->
  export_library c true w
  = (Ok tt, mkWorld (library_json w) (Some (encode c)) (confirm_clear w)
              (page w ++ [success Exported])).
Proof.
  intros H. unfold export_library, try_except, bind.
  unfold put_library_txt at 1. unfold open_w.
  rewrite (for_each_export_book c _ H). reflexivity.
Qed.

Lemma import_line_run (line : string) (vars : list book * book) (w : world) :
  import_line line vars w
  = (Ok (decode_line line vars), rendering (line_warnings line vars) w).
Proof.
  unfold decode_line, line_warnings, import_line.
  destruct vars as [lib book].
  destruct (Py.startswith line "Title:");
    [unfold ret; rewrite rendering_nil; reflexivity|].
  destruct (Py.startswith line "Author:");
    [unfold ret; rewrite rendering_nil; reflexivity|].
  destruct (Py.startswith line "Year:").
  - destruct (Py.int _); [unfold ret; rewrite rendering_nil|]; reflexivity.
  - destruct (Py.startswith line "Genre:");
      [unfold ret; rewrite rendering_nil; reflexivity|].
    destruct (Py.startswith line "Read:");
      unfold ret; rewrite rendering_nil; reflexivity.
Qed.

Lemma import_lines_run (lines : list string) (vars : list book * book)
    (w : world) :
  import_lines lines vars w
  = (Ok (decode_lines lines vars), rendering (lines_warnings lines vars) w).
Proof.
  revert vars w. induction lines as [|line rest IH]; intros vars w.
  - simpl. unfold ret. rewrite rendering_nil. reflexivity.
  - simpl import_lines. unfold bind. rewrite import_line_run, IH.
    rewrite rendering_rendering. reflexivity.
Qed.

(** [import_library] on a text never raises: it returns the decoded
    catalog, saves it and shows the warnings and the success message. *)
Lemma import_library_run (text : string) (w : world) :
  import_library (Uploaded (Ok text)) w
  = (Ok (Some (decode text)),
     mkWorld (Some (Json.dumps (decode text))) (library_txt w)
       (confirm_clear w)
       (page w
        ++ lines_warnings (Py.splitlines text) ([], empty_book)
        ++ [success Imported])).
Proof.
  unfold import_library, try_except, bind, lift.
  rewrite import_lines_run. fold (decode text).
  rewrite save_library_run. simpl. rewrite <- app_assoc. reflexivity.
Qed.

Lemma startswith_exclusive (line : string) (c d : ascii) (p q : string) :
  c <> d ->
  Py.startswith line (String c p) = true ->
  Py.startswith line (String d q) = false.
Proof.
  intros Hcd. unfold Py.startswith. destruct line as [|x line]; simpl.
  - discriminate.
  - destruct (Ascii.ascii_dec c x) as [->|_]; [|discriminate].
    intros _. destruct (Ascii.ascii_dec d x) as [->|_]; [congruence|].
    reflexivity.
Qed.

Lemma decode_line_Read (line : string) (lib : list book) (book : book) :
  Py.startswith line "Read:" = true ->
  decode_line line (lib, book)
  = (lib ++ [set_read_status
               (String.eqb (Py.strip (Py.replace line "Read: " EmptyString)) "Yes")
               book],
     empty_book).
Proof.
  intros H. unfold decode_line, import_line.
  rewrite (startswith_exclusive line "R" "T" _ "itle:" ltac:(discriminate) H).
  rewrite (startswith_exclusive line "R" "A" _ "uthor:" ltac:(discriminate) H).
  rewrite (startswith_exclusive line "R" "Y" _ "ear:" ltac:(discriminate) H).
  rewrite (startswith_exclusive line "R" "G" _ "enre:" ltac:(discriminate) H).
  rewrite H. reflexivity.
Qed.

Lemma decode_line_not_Read (line : string) (lib : list book) (book : book) :
  Py.startswith line "Read:" = false ->
  fst (decode_line line (lib, book)) = lib.
Proof.
  intros H. unfold decode_line, import_line. rewrite H.
  destruct (Py.startswith line "Title:"); [reflexivity|].
  destruct (Py.startswith line "Author:"); [reflexivity|].
  destruct (Py.startswith line "Year:").
  - destruct (Py.int _); reflexivity.
  - destruct (Py.startswith line "Genre:"); reflexivity.
Qed.





(** *** The [Read:] line *)

(** What the code does with a line made of the prefix [Read: ] and a
    rest: it appends the book being read, with [read_status] true exactly
    when [line.replace("Read: ", "").strip()] equals ["Yes"]; any other
    rest gives false, never an error.  When the rest holds no occurrence
    of [Read: ], the value compared is the stripped rest itself. *)
Theorem import_read_status (rest : string) (lib : list book) (book : book)
    (w : world) :
  import_line (String.append "Read: " rest) (lib, book) w
  = (Ok (lib ++ [set_read_status
                   (String.eqb (Py.strip (Py.replace rest "Read: " EmptyString))
                      "Yes") book],
         empty_book), w) /\
  (Py.contains "Read: " rest = false ->
   import_line (String.append "Read: " rest) (lib, book) w
   = (Ok (lib ++ [set_read_status (String.eqb (Py.strip rest) "Yes") book],
          empty_book), w)).
Proof.
  assert (H : Py.startswith (String.append "Read: " rest) "Read:" = true)
    by reflexivity.
  assert (Hrun : import_line (String.append "Read: " rest) (lib, book) w
                 = (Ok (lib ++ [set_read_status
                                  (String.eqb
                                     (Py.strip (Py.replace rest "Read: " EmptyString))
                                     "Yes") book],
                        empty_book), w)).
  { unfold import_line.
    rewrite (startswith_exclusive _ "R" "T" _ "itle:" ltac:(discriminate) H).
    rewrite (startswith_exclusive _ "R" "A" _ "uthor:" ltac:(discriminate) H).
    rewrite (startswith_exclusive _ "R" "Y" _ "ear:" ltac:(discriminate) H).
    rewrite (startswith_exclusive _ "R" "G" _ "enre:" ltac:(discriminate) H).
    rewrite H. rewrite replace_head by discriminate. reflexivity. }
  split; [exact Hrun|].
  intros Hc. rewrite Hrun, (replace_absent _ _ _ Hc). reflexivity.
Qed.

(** C10.  The code at the line [Read: Read: Yes]: the text after the
    prefix, stripped, is ["Read: Yes"], which is not ["Yes"], and yet the
    book is appended with [read_status] true.  The code means to take the
    prefix off the line and does so with [str.replace], which deletes the
    label wherever it occurs in the line. *)
Lemma read_status_true_without_Yes :
  Py.strip "Read: Yes" <> "Yes" /\
  fst (import_line (String.append "Read: " "Read: Yes") ([], empty_book)
         world0)
  = Ok ([set_read_status true empty_book], empty_book).
Proof. split; [discriminate | reflexivity]. Qed.

(** *** Round trip *)

Lemma decode_line_Title (t : string) (lib : list book) (book : book) :
  decode_line (String.append "Title: " t) (lib, book)
  = (lib, set_title (Py.strip (Py.replace t "Title: " EmptyString)) book).
Proof.
  unfold decode_line, import_line.
  change (Py.startswith (String.append "Title: " t) "Title:") with true.
  cbv iota. rewrite replace_head by discriminate. reflexivity.
Qed.

Lemma decode_line_Author (a : string) (lib : list book) (book : book) :
  decode_line (String.append "Author: " a) (lib, book)
  = (lib, set_author (Py.strip (Py.replace a "Author: " EmptyString)) book).
Proof.
  unfold decode_line, import_line.
  change (Py.startswith (String.append "Author: " a) "Title:") with false.
  change (Py.startswith (String.append "Author: " a) "Author:") with true.
  cbv iota. rewrite replace_head by discriminate. reflexivity.
Qed.

Lemma decode_line_Year (y : string) (lib : list book) (book : book) :
  decode_line (String.append "Year: " y) (lib, book)
  = (lib, set_year (Py.int (Py.strip (Py.replace y "Year: " EmptyString))) book).
Proof.
  unfold decode_line, import_line.
  change (Py.startswith (String.append "Year: " y) "Title:") with false.
  change (Py.startswith (String.append "Year: " y) "Author:") with false.
  change (Py.startswith (String.append "Year: " y) "Year:") with true.
  cbv iota. rewrite replace_head by discriminate.
  destruct (Py.int _); reflexivity.
Qed.

Lemma decode_line_Genre (g : string) (lib : list book) (book : book) :
  decode_line (String.append "Genre: " g) (lib, book)
  = (lib, set_genre (Py.strip (Py.replace g "Genre: " EmptyString)) book).
Proof.
  unfold decode_line, import_line.
  change (Py.startswith (String.append "Genre: " g) "Title:") with false.
  change (Py.startswith (String.append "Genre: " g) "Author:") with false.
  change (Py.startswith (String.append "Genre: " g) "Year:") with false.
  change (Py.startswith (String.append "Genre: " g) "Genre:") with true.
  cbv iota. rewrite replace_head by discriminate. reflexivity.
Qed.

Lemma survives_back (label s : string) :
  survives label s = true ->
  Py.strip (Py.replace s label EmptyString) = s /\ single_line s = true.
Proof.
  unfold survives. intros H.
  apply andb_true_iff in H as [H Hc]. apply andb_true_iff in H as [Hl Hs].
  apply negb_true_iff in Hc. apply String.eqb_eq in Hs.
  rewrite (replace_absent _ _ _ Hc). split; assumption.
Qed.

Lemma int_char_no_space (c : ascii) :
  is_int_char c = true -> negb (Py.is_space c) = true.
Proof.
  destruct c as [[] [] [] [] [] [] [] []]; intros H;
    try discriminate H; reflexivity.
Qed.

Lemma int_char_no_linebreak (c : ascii) :
  is_int_char c = true -> negb (Py.is_linebreak c) = true.
Proof.
  destruct c as [[] [] [] [] [] [] [] []]; intros H;
    try discriminate H; reflexivity.
Qed.

Lemma year_back (y : option Z) :
  Py.int (Py.strip (Py.replace (str_of_year y) "Year: " EmptyString)) = y /\
  single_line (str_of_year y) = true.
Proof.
  destruct y as [n|]; [|split; reflexivity].
  simpl str_of_year. pose proof (str_of_int_chars n) as Hc.
  rewrite replace_absent
    by (apply (contains_first_char is_int_char); [reflexivity | exact Hc]).
  rewrite strip_no_space
    by (apply (all_chars_impl is_int_char); [apply int_char_no_space | exact Hc]).
  split; [apply int_str_of_int|].
  apply (all_chars_impl is_int_char); [apply int_char_no_linebreak | exact Hc].
Qed.

Lemma single_line_label (label s : string) :
  single_line label = true -> single_line s = true ->
  single_line (String.append label s) = true.
Proof.
  intros Hl Hs. unfold single_line in *.
  rewrite all_chars_append, Hl, Hs. reflexivity.
Qed.

Lemma record_lines_single (b : book) :
  round_trips b = true ->
  forallb single_line (record_lines b) = true.
Proof.
  unfold round_trips, record_lines.
  destruct (title b) as [t|], (author b) as [a|], (year b) as [y|],
    (genre b) as [g|], (read_status b) as [r|]; try discriminate.
  intros H. apply andb_true_iff in H as [H Hg].
  apply andb_true_iff in H as [Ht Ha].
  apply survives_back in Ht as [_ Ht], Ha as [_ Ha], Hg as [_ Hg].
  destruct (year_back y) as [_ Hy].
  simpl forallb.
  rewrite !single_line_label by (assumption || reflexivity || (destruct r; reflexivity)).
  reflexivity.
Qed.

Lemma decode_record (b : book) (rest : list string) (lib : list book) :
  round_trips b = true ->
  decode_lines (record_lines b ++ rest) (lib, empty_book)
  = decode_lines rest (lib ++ [b], empty_book).
Proof.
  unfold round_trips, record_lines.
  destruct b as [[t|] [a|] [y|] [g|] [r|]]; simpl; try discriminate.
  intros H. apply andb_true_iff in H as [H Hg].
  apply andb_true_iff in H as [Ht Ha].
  apply survives_back in Ht as [Ht _], Ha as [Ha _], Hg as [Hg _].
  destruct (year_back y) as [Hy _].
  rewrite decode_line_Title, Ht.
  rewrite decode_line_Author, Ha.
  rewrite decode_line_Year, Hy.
  rewrite decode_line_Genre, Hg.
  rewrite decode_line_Read by (destruct r; reflexivity).
  f_equal.
  destruct r; reflexivity.
Qed.

Lemma decode_records (c : library) (lib : list book) :
  forallb round_trips c = true ->
  decode_lines (flat_map record_lines c) (lib, empty_book)
  = (lib ++ c, empty_book).
Proof.
  revert lib. induction c as [|b c IH]; intros lib H.
  - simpl. rewrite app_nil_r. reflexivity.
  - simpl in H. apply andb_true_iff in H as [Hb Hc].
    simpl flat_map. rewrite (decode_record b _ lib Hb), (IH _ Hc).
    rewrite <- app_assoc. reflexivity.
Qed.

Lemma splitlines_unlines (lines : list string) :
  forallb single_line lines = true ->
  Py.splitlines (unlines lines) = lines.
Proof.
  unfold Py.splitlines. induction lines as [|line rest IH]; intros H.
  - reflexivity.
  - simpl in H. apply andb_true_iff in H as [Hl Hr].
    simpl unlines. rewrite (splitlines_line _ _ _ Hl), (IH Hr).
    reflexivity.
Qed.

Lemma forallb_flat_map {A B} (p : B -> bool) (f : A -> list B) (l : list A) :
  (forall x, In x l -> forallb p (f x) = true) ->
  forallb p (flat_map f l) = true.
Proof.
  induction l as [|x l IH]; intros H; [reflexivity|].
  simpl. rewrite forallb_app, (H x (or_introl eq_refl)).
  apply IH. intros y Hy. apply H. right. exact Hy.
Qed.

Lemma round_trips_complete (b : book) :
  round_trips b = true -> is_complete b = true.
Proof.
  unfold round_trips, is_complete.
  destruct (title b), (author b), (year b), (genre b), (read_status b);
    try discriminate.
  reflexivity.
Qed.

Lemma decode_encode (c : library) :
  forallb round_trips c = true -> decode (encode c) = c.
Proof.
  intros H. unfold decode, encode.
  rewrite splitlines_unlines.
  - rewrite (decode_records c [] H). reflexivity.
  - apply forallb_flat_map. intros b Hb. apply record_lines_single.
    rewrite forallb_forall in H. apply H. exact Hb.
Qed.

(** C1, as amended.  For every catalog of complete books whose title,
    author and genre are single-line texts with no white space at either
    end and no occurrence of their own label ([Title: ], [Author: ],
    [Genre: ]), and whose year is an integer or [None], importing the text
    that [export_library] writes yields the catalog again, field for
    field, the boolean read status and the year included. *)
Theorem export_import_round_trip (c : library) (w w' : world) :
  forallb round_trips c = true ->
  exists text,
    export_library c true w
    = (Ok tt, mkWorld (library_json w) (Some text) (confirm_clear w)
                (page w ++ [success Exported])) /\
    fst (import_library (Uploaded (Ok text)) w') = Ok (Some c).
Proof.
  intros H. exists (encode c). split.
  - apply export_library_run.
    rewrite forallb_forall in *. intros b Hb.
    apply round_trips_complete, H, Hb.
  - rewrite import_library_run, (decode_encode c H). reflexivity.
Qed.

Lemma export_import_round_trip_witness :
  forallb round_trips [Dune; Foundation] = true /\
  exists text,
    export_library [Dune; Foundation] true world0
    = (Ok tt, mkWorld None (Some text) false [success Exported]) /\
    fst (import_library (Uploaded (Ok text)) world0)
    = Ok (Some [Dune; Foundation]).
Proof.
  split; [reflexivity|].
  exact (export_import_round_trip [Dune; Foundation] world0 world0 eq_refl).
Defined.

(** C1, as stated, fails: a book whose title starts with a space is a
    valid book, and it comes back from the text with the space gone. *)
Lemma round_trip_loses_padding :
  forallb valid_book [padded_Dune] = true /\
  library_txt (snd (export_library [padded_Dune] true world0))
  = Some (encode [padded_Dune]) /\
  fst (import_library (Uploaded (Ok (encode [padded_Dune]))) world0)
  = Ok (Some [Dune]) /\
  [Dune] <> [padded_Dune].
Proof.
  split; [reflexivity|]. split; [reflexivity|].
  split; [vm_compute; reflexivity | discriminate].
Qed.

(** ** Importing and the catalog of [main] *)


(** ** Saving *)

Lemma substring_length (n : nat) (s : string) :
  String.length (String.substring 0 n s) = Nat.min n (String.length s).
Proof.
  revert n. induction s as [|c s IH]; intros [|n]; simpl; try reflexivity.
  rewrite IH. reflexivity.
Qed.

(** C8, as amended.  [save_library] opens the file for writing, which
    empties it, and then writes the whole JSON text of the catalog: when
    the write completes the file holds that text and nothing of what it
    held before (the prior contents are replaced, never appended to).  The
    write is made in place: if it stops after [n] characters, the file
    holds those [n] characters, a proper prefix of the text, and the prior
    contents are gone. *)
Theorem save_library_overwrites (l : library) (w : world) :
  save_library l w
  = (Ok tt, mkWorld (Some (Json.dumps l)) (library_txt w) (confirm_clear w)
              (page w)) /\
  (forall n,
     (n < String.length (Json.dumps l))%nat ->
     library_json (snd (save_library_upto n l w))
     = Some (first_chars n (Json.dumps l)) /\
     String.length (first_chars n (Json.dumps l)) = n /\
     first_chars n (Json.dumps l) <> Json.dumps l).
Proof.
  split; [apply save_library_run|].
  intros n Hn. rewrite save_library_upto_run. simpl.
  assert (Hlen : String.length (first_chars n (Json.dumps l)) = n).
  { unfold first_chars. rewrite substring_length. lia. }
  split; [reflexivity|]. split; [exact Hlen|].
  intros Heq. rewrite Heq in Hlen. lia.
Qed.

Lemma save_library_overwrites_witness :
  (5 < String.length (Json.dumps [Dune]))%nat /\
  library_json (snd (save_library_upto 5 [Dune] (world_with [Foundation])))
  = Some (first_chars 5 (Json.dumps [Dune])) /\
  first_chars 5 (Json.dumps [Dune]) <> Json.dumps [Dune].
Proof.
  assert (H : (5 < String.length (Json.dumps [Dune]))%nat)
    by (vm_compute; lia).
  split; [exact H|].
  pose proof (proj2 (save_library_overwrites [Dune] (world_with [Foundation]))
                5%nat H) as [Hfile [_ Hne]].
  split; [exact Hfile | exact Hne].
Defined.

(** C8, as stated, fails: a save that stops right after the file has been
    opened leaves an empty file, which is neither what the file held nor
    the new catalog. *)
Lemma save_library_is_not_atomic :
  library_json
    (snd (save_library_upto 0 [Dune; Foundation] (world_with [Dune])))
  = Some EmptyString /\
  Some EmptyString <> library_json (world_with [Dune]) /\
  Some EmptyString <> Some (Json.dumps [Dune; Foundation]).
Proof. split; [reflexivity|]. split; discriminate. Qed.

(** * Further properties *)

(** ** Exporting a catalog with an incomplete book *)

Lemma export_book_missing (b : book) (k : string) (w : world) :
  missing_key b = Some k ->
  export_book b w
  = (Raised (KeyError k),
     mkWorld (library_json w)
       (file_write (unlines (lines_before_missing b)) (library_txt w))
       (confirm_clear w) (page w)).
Proof.
  assert (Hid : forall f, file_write EmptyString f = f)
    by (intros [s|]; simpl; [rewrite append_empty_r|]; reflexivity).
  unfold missing_key, export_book, lines_before_missing.
  destruct w as [j f cc p].
  destruct (title b) as [t|], (author b) as [a|], (year b) as [y|],
    (genre b) as [g|], (read_status b) as [r|];
    intros H; inversion H; subst k; clear H;
    unfold bind, lift, write_txt, put_library_txt; simpl;
    rewrite ?file_write_write, ?append_assoc, ?Hid; reflexivity.
Qed.

Lemma for_each_export_stops (c1 c2 : library) (b : book) (k : string)
    (w : world) :
  forallb is_complete c1 = true ->
  missing_key b = Some k ->
  for_each export_book (c1 ++ b :: c2) w
  = (Raised (KeyError k),
     mkWorld (library_json w)
       (file_write
          (String.append (encode c1) (unlines (lines_before_missing b)))
          (library_txt w))
       (confirm_clear w) (page w)).
Proof.
  revert w. induction c1 as [|b1 c1 IH]; intros w Hc Hk.
  - simpl app. simpl for_each. unfold bind.
    rewrite (export_book_missing b k w Hk). reflexivity.
  - simpl in Hc. apply andb_true_iff in Hc as [Hb1 Hc1].
    simpl app. simpl for_each. unfold bind.
    rewrite (export_book_run b1 w Hb1). rewrite (IH _ Hc1 Hk).
    simpl. rewrite file_write_write. unfold encode. simpl flat_map.
    rewrite unlines_app, append_assoc. reflexivity.
Qed.

(** X1.  When the catalog holds a book that lacks a key, [export_library]
    does not raise: it shows the error with the missing key, and leaves in
    the text file the records of the books before that one and the lines
    already written for it; no book after it is written. *)
Theorem export_library_stops_at_missing_key (c1 c2 : library) (b : book)
    (k : string) (w : world) :
  forallb is_complete c1 = true ->
  missing_key b = Some k ->
  export_library (c1 ++ b :: c2) true w
  = (Ok tt,
     mkWorld (library_json w)
       (Some (String.append (encode c1) (unlines (lines_before_missing b))))
       (confirm_clear w)
       (page w ++ [error (ExportError (KeyError k))])).
Proof.
  intros Hc Hk. unfold export_library, try_except, bind.
  unfold put_library_txt at 1. unfold open_w.
  rewrite (for_each_export_stops c1 c2 b k _ Hc Hk). reflexivity.
Qed.

Lemma export_library_stops_at_missing_key_witness :
  forallb is_complete [Dune] = true /\
  missing_key (mkBook (Some "Emma") (Some "Austen") None None None)
  = Some "year" /\
  export_library
    ([Dune] ++ mkBook (Some "Emma") (Some "Austen") None None None
            :: [Foundation]) true world0
  = (Ok tt,
     mkWorld None
       (Some (String.append (encode [Dune])
                (unlines ["Title: Emma"; "Author: Austen"])))
       false [error (ExportError (KeyError "year"))]).
Proof.
  split; [reflexivity|]. split; [reflexivity|].
  exact (export_library_stops_at_missing_key [Dune] [Foundation]
           (mkBook (Some "Emma") (Some "Austen") None None None) "year"
           world0 eq_refl eq_refl).
Defined.

(** ** Removing: missing titles, removing twice, removing what was added *)

Lemma comprehension_raises (t : string) (l : list book) :
  forallb has_title l = false ->
  comprehension (title_differs t) l = Raised (KeyError "title").
Proof.
  induction l as [|b l IH]; intros H; [discriminate|].
  simpl in H. simpl comprehension. unfold title_differs at 1.
  unfold has_title in H at 1.
  destruct (title b) as [x|]; [|reflexivity].
  simpl in H. simpl rbind. rewrite (IH H). reflexivity.
Qed.

Lemma remove_book_missing_title_run (l : library) (t : string) (w : world) :
  forallb has_title l = false ->
  remove_book l t true w = (Raised (KeyError "title"), w).
Proof.
  intros H. unfold remove_book, bind, lift.
  rewrite (comprehension_raises t l H). reflexivity.
Qed.

(** X2.  When some book of the catalog has no title, [remove_book] raises
    [KeyError] for the key [title] and changes nothing: no book is removed,
    nothing is saved and nothing is shown. *)
Theorem remove_book_missing_title (l : library) (t : string) (w : world) :
  forallb has_title l = false ->
  remove_book l t true w = (Raised (KeyError "title"), w).
Proof.
  intros H. unfold remove_book, bind, lift.
  rewrite (comprehension_raises t l H). reflexivity.
Qed.

Lemma remove_book_missing_title_witness :
  forallb has_title [Dune; empty_book; dune] = false /\
  remove_book [Dune; empty_book; dune] "Dune" true (world_with [Dune])
  = (Raised (KeyError "title"), world_with [Dune]).
Proof.
  split; [reflexivity|].
  exact (remove_book_missing_title [Dune; empty_book; dune] "Dune"
           (world_with [Dune]) eq_refl).
Defined.

Lemma remove_book_run (l : library) (t : string) (w : world) :
  forallb has_title l = true ->
  remove_book l t true w
  = let kept := List.filter (fun b => negb (same_title t b)) l in
    if (length kept <? length l)%nat
    then (Ok kept,
          mkWorld (Some (Json.dumps kept)) (library_txt w) (confirm_clear w)
            (page w ++ [success (BookRemoved t)]))
    else (Ok kept, rendering [error BookNotFound] w).
Proof.
  intros Hl. unfold remove_book, bind, lift.
  rewrite (comprehension_filter _ _ l (title_differs_total t l Hl)).
  cbv zeta.
  destruct (length (List.filter (fun b => negb (same_title t b)) l)
            <? length l)%nat.
  - rewrite save_library_run. reflexivity.
  - reflexivity.
Qed.

Lemma filter_filter_same {A} (f : A -> bool) (l : list A) :
  List.filter f (List.filter f l) = List.filter f l.
Proof.
  induction l as [|x l IH]; [reflexivity|].
  simpl. destruct (f x) eqn:Hx; simpl; rewrite ?Hx, IH; reflexivity.
Qed.

(** X3.  Removing the same title a second time finds nothing: after a
    [remove_book], a second one with the same title returns the catalog
    the first one left, saves nothing and shows "Book not found.". *)
Theorem remove_book_twice (l : library) (t : string) (w : world) :
  forallb has_title l = true ->
  exists kept w1,
    remove_book l t true w = (Ok kept, w1) /\
    remove_book kept t true w1 = (Ok kept, rendering [error BookNotFound] w1).
Proof.
  intros Hl. rewrite (remove_book_run l t w Hl). cbv zeta.
  set (kept := List.filter (fun b => negb (same_title t b)) l).
  assert (Hk : forallb has_title kept = true)
    by (apply forallb_filter; exact Hl).
  assert (H2 : forall w1, remove_book kept t true w1
                          = (Ok kept, rendering [error BookNotFound] w1)).
  { intros w1. rewrite (remove_book_run kept t w1 Hk). cbv zeta.
    replace (List.filter (fun b => negb (same_title t b)) kept) with kept
      by (unfold kept; rewrite filter_filter_same; reflexivity).
    rewrite Nat.ltb_irrefl. reflexivity. }
  destruct (length kept <? length l)%nat; eexists _, _; split;
    try reflexivity; apply H2.
Qed.

Lemma remove_book_twice_witness :
  forallb has_title [Dune; Foundation; dune] = true /\
  exists kept w1,
    remove_book [Dune; Foundation; dune] "dune" true world0 = (Ok kept, w1) /\
    remove_book kept "dune" true w1
    = (Ok kept, rendering [error BookNotFound] w1).
Proof.
  split; [reflexivity|].
  exact (remove_book_twice [Dune; Foundation; dune] "dune" world0 eq_refl).
Defined.

Lemma forallb_snoc {A} (p : A -> bool) (l : list A) (x : A) :
  forallb p (l ++ [x]) = forallb p l && p x.
Proof. rewrite forallb_app. simpl. rewrite andb_true_r. reflexivity. Qed.

Lemma same_title_lower (t t' : string) (b : book) :
  Py.lower t' = Py.lower t -> same_title t' b = same_title t b.
Proof. intros H. unfold same_title. rewrite H. reflexivity. Qed.

(** X4.  A book that [add_book] has accepted is removed again by
    [remove_book] with its title in any letter case, together with every
    other book of that title: what is left is the earlier catalog without
    the books of that title, and it is saved. *)
Theorem add_book_then_remove_book (l : library) (t a : string) (y : Z)
    (g : string) (r : bool) (t' : string) (w : world) :
  forallb has_title l = true ->
  truthy t && truthy a && nonzero y && truthy g = true ->
  Py.lower t' = Py.lower t ->
  exists l1 w1,
    add_book l t a y g r true w = (Ok l1, w1) /\
    remove_book l1 t' true w1
    = (Ok (List.filter (fun b => negb (same_title t b)) l),
       mkWorld
         (Some (Json.dumps (List.filter (fun b => negb (same_title t b)) l)))
         (library_txt w) (confirm_clear w)
         (page w ++ [success (BookAdded t a); success (BookRemoved t')])).
Proof.
  intros Hl Hok Hcase.
  rewrite (add_book_accepted l t a y g r w Hok).
  eexists _, _. split; [reflexivity|].
  set (book := mkBook (Some t) (Some a) (Some (Some y)) (Some g) (Some r)).
  assert (Hl1 : forallb has_title (l ++ [book]) = true)
    by (rewrite forallb_snoc, Hl; reflexivity).
  rewrite (remove_book_run _ t' _ Hl1). cbv zeta.
  assert (Hself : same_title t' book = true).
  { rewrite (same_title_lower t t' book Hcase). unfold same_title, book.
    simpl. apply String.eqb_refl. }
  assert (Hkept : List.filter (fun b => negb (same_title t' b)) (l ++ [book])
                  = List.filter (fun b => negb (same_title t b)) l).
  { rewrite List.filter_app. simpl. rewrite Hself. simpl. rewrite app_nil_r.
    apply List.filter_ext. intros b. rewrite (same_title_lower t t' b Hcase).
    reflexivity. }
  rewrite Hkept.
  assert (Hlt : (length (List.filter (fun b => negb (same_title t b)) l)
                 <? length (l ++ [book]))%nat = true).
  { apply Nat.ltb_lt. rewrite length_app. simpl.
    pose proof (List.filter_length_le (fun b => negb (same_title t b)) l).
    lia. }
  rewrite Hlt. simpl. rewrite <- app_assoc. reflexivity.
Qed.

Lemma add_book_then_remove_book_witness :
  forallb has_title [Foundation; dune] = true /\
  truthy "Dune" && truthy "Herbert" && nonzero 1965 && truthy "Sci-Fi" = true /\
  Py.lower "DUNE" = Py.lower "Dune" /\
  exists l1 w1,
    add_book [Foundation; dune] "Dune" "Herbert" 1965 "Sci-Fi" true true world0
    = (Ok l1, w1) /\
    fst (remove_book l1 "DUNE" true w1) = Ok [Foundation].
Proof.
  split; [reflexivity|]. split; [reflexivity|]. split; [reflexivity|].
  destruct (add_book_then_remove_book [Foundation; dune] "Dune" "Herbert"
              1965 "Sci-Fi" true "DUNE" world0 eq_refl eq_refl eq_refl)
    as [l1 [w1 [H1 H2]]].
  exists l1, w1. split; [exact H1|]. rewrite H2. reflexivity.
Defined.

(** ** Searching for what was added *)

Lemma search_books_run (l : library) (q : string) (w : world) :
  forallb is_complete l = true ->
  q <> EmptyString ->
  search_books l q w
  = (Ok tt,
     rendering
       match List.filter (query_matches q) l with
       | [] => [info NoMatchingBooks]
       | _ :: _ =>
           search_results_heading
           :: flat_map details_of (List.filter (query_matches q) l)
       end w).
Proof.
  intros Hl Hq. unfold search_books.
  destruct q as [|c q]; [congruence|].
  change (truthy (String c q)) with true. cbv iota.
  unfold bind at 1. unfold lift.
  rewrite (comprehension_filter _ (query_matches (String c q)) l)
    by (intros b Hb; apply matches_query_total;
        rewrite forallb_forall in Hl; auto).
  assert (Hr : forallb is_complete
                 (List.filter (query_matches (String c q)) l) = true)
    by (apply forallb_filter; exact Hl).
  destruct (List.filter (query_matches (String c q)) l) as [|b rs];
    [reflexivity|].
  cbv beta iota. unfold bind at 1. rewrite show_run.
  rewrite (for_each_show_book _ _ Hr), rendering_rendering. reflexivity.
Qed.

(** X5.  A book that [add_book] has accepted is found by [search_books]
    with any non-empty query that occurs in its title when case is
    ignored: its details are rendered, last, after those of the earlier
    books that match. *)
Theorem add_book_then_search_books (l : library) (t a : string) (y : Z)
    (g : string) (r : bool) (q : string) (w : world) :
  forallb is_complete l = true ->
  truthy t && truthy a && nonzero y && truthy g = true ->
  q <> EmptyString ->
  occurs_ignoring_case q t ->
  exists l1 w1,
    add_book l t a y g r true w = (Ok l1, w1) /\
    search_books l1 q w1
    = (Ok tt,
       rendering
         (search_results_heading
          :: flat_map details_of (List.filter (query_matches q) l)
          ++ [book_details t a (Some y) g r]) w1).
Proof.
  intros Hl Hok Hq Hocc.
  rewrite (add_book_accepted l t a y g r w Hok).
  eexists _, _. split; [reflexivity|].
  set (book := mkBook (Some t) (Some a) (Some (Some y)) (Some g) (Some r)).
  assert (Hl1 : forallb is_complete (l ++ [book]) = true)
    by (rewrite forallb_snoc, Hl; reflexivity).
  rewrite (search_books_run _ q _ Hl1 Hq).
  assert (Hm : query_matches q book = true).
  { unfold query_matches, book. simpl. apply orb_true_iff. left.
    apply contains_occurs. exact Hocc. }
  rewrite List.filter_app. simpl List.filter. rewrite Hm.
  rewrite flat_map_app. simpl flat_map.
  destruct (List.filter (query_matches q) l); reflexivity.
Qed.

Lemma add_book_then_search_books_witness :
  forallb is_complete [Foundation] = true /\
  occurs_ignoring_case "UN" "Dune" /\
  exists l1 w1,
    add_book [Foundation] "Dune" "Herbert" 1965 "Sci-Fi" true true world0
    = (Ok l1, w1) /\
    search_books l1 "UN" w1
    = (Ok tt,
       rendering
         [search_results_heading;
          book_details "Foundation" "Asimov" (Some 1951) "Sci-Fi" false;
          book_details "Dune" "Herbert" (Some 1965) "Sci-Fi" true] w1).
Proof.
  assert (Hocc : occurs_ignoring_case "UN" "Dune")
    by (exists "d", "e"; reflexivity).
  split; [reflexivity|]. split; [exact Hocc|].
  exact (add_book_then_search_books [Foundation] "Dune" "Herbert" 1965
           "Sci-Fi" true "UN" world0 eq_refl eq_refl ltac:(discriminate)
           Hocc).
Defined.

(** ** What the handlers leave alone *)

Section Respects.

Variable R : world -> world -> Prop.
Hypothesis R_refl : forall w, R w w.
Hypothesis R_trans : forall w1 w2 w3, R w1 w2 -> R w2 w3 -> R w1 w3.

Lemma respects_ret {A} (a : A) : respects R (ret a).
Proof. intros w. apply R_refl. Qed.

Lemma respects_lift {A} (r : result A) : respects R (lift r).
Proof. intros w. apply R_refl. Qed.

Lemma respects_bind {A B} (c : M A) (k : A -> M B) :
  respects R c -> (forall a, respects R (k a)) -> respects R (bind c k).
Proof.
  intros Hc Hk w. unfold bind. specialize (Hc w).
  destruct (c w) as [[a|e] w1]; simpl in *; [|exact Hc].
  apply (R_trans _ w1); [exact Hc | apply Hk].
Qed.

Lemma respects_try_except {A} (c : M A) (h : exn -> M A) :
  respects R c -> (forall e, respects R (h e)) -> respects R (try_except c h).
Proof.
  intros Hc Hh w. unfold try_except. specialize (Hc w).
  destruct (c w) as [[a|e] w1]; simpl in *; [exact Hc|].
  apply (R_trans _ w1); [exact Hc | apply Hh].
Qed.

Lemma respects_for_each {A} (f : A -> M unit) (l : list A) :
  (forall x, respects R (f x)) -> respects R (for_each f l).
Proof.
  intros Hf. induction l as [|x l IH]; simpl.
  - apply respects_ret.
  - apply respects_bind; [apply Hf | intros _; exact IH].
Qed.

End Respects.

Lemma only_renders_refl (w : world) : only_renders w w.
Proof. exists []. symmetry. apply rendering_nil. Qed.

Lemma only_renders_trans (w1 w2 w3 : world) :
  only_renders w1 w2 -> only_renders w2 w3 -> only_renders w1 w3.
Proof.
  intros [os1 ->] [os2 ->]. exists (os1 ++ os2). apply rendering_rendering.
Qed.

Lemma show_only_renders (o : output) : respects only_renders (show o).
Proof. intros w. exists [o]. reflexivity. Qed.

Lemma only_renders_bind {A B} (c : M A) (k : A -> M B) :
  respects only_renders c -> (forall a, respects only_renders (k a)) ->
  respects only_renders (bind c k).
Proof. apply respects_bind. exact only_renders_trans. Qed.

Lemma only_renders_lift {A} (r : result A) : respects only_renders (lift r).
Proof. apply respects_lift. exact only_renders_refl. Qed.

Lemma show_book_only_renders (b : book) : respects only_renders (show_book b).
Proof.
  unfold show_book.
  repeat (apply only_renders_bind; [apply only_renders_lift | intros ?]).
  apply show_only_renders.
Qed.

Lemma search_books_only_renders (l : library) (q : string) :
  respects only_renders (search_books l q).
Proof.
  unfold search_books. destruct (truthy q);
    [|apply respects_ret; exact only_renders_refl].
  apply only_renders_bind; [apply only_renders_lift|]. intros [|b rs].
  - apply show_only_renders.
  - apply only_renders_bind; [apply show_only_renders|]. intros _.
    apply (respects_for_each _ only_renders_refl only_renders_trans).
    apply show_book_only_renders.
Qed.

Lemma display_statistics_only_renders (l : library) :
  respects only_renders (display_statistics l).
Proof.
  unfold display_statistics.
  apply only_renders_bind; [apply only_renders_lift|]. intros n.
  apply only_renders_bind; [apply show_only_renders|]. intros _.
  apply only_renders_bind; [apply show_only_renders|]. intros _.
  destruct l as [|b l'].
  - apply show_only_renders.
  - apply only_renders_bind; [apply only_renders_lift|].
    intros gs. apply show_only_renders.
Qed.

(** X6.  [search_books] and [display_statistics] only render: for every
    catalog (complete or not), query and world, and whether they return or
    raise, the two files and the session flag are left as they were and
    the page only grows. *)
Theorem search_and_statistics_only_render (l : library) (q : string)
    (w : world) :
  (exists os, snd (search_books l q w) = rendering os w) /\
  (exists os, snd (display_statistics l w) = rendering os w).
Proof.
  split.
  - exact (search_books_only_renders l q w).
  - exact (display_statistics_only_renders l w).
Qed.

(** ** Statistics: the counts add up, and what a missing key does *)

Lemma total_count_insert (counts : gmap string nat) (g : string) (n : nat) :
  counts !! g = None ->
  total_count (<[g := n]> counts) = (n + total_count counts)%nat.
Proof.
  intros H. unfold total_count.
  apply (map_fold_insert_L (fun _ n acc => (n + acc)%nat)); [|exact H].
  intros. lia.
Qed.

Lemma total_count_delete (counts : gmap string nat) (g : string) (n : nat) :
  counts !! g = Some n ->
  total_count counts = (n + total_count (delete g counts))%nat.
Proof.
  intros H. unfold total_count.
  apply (map_fold_delete_L (fun _ n acc => (n + acc)%nat)); [|exact H].
  intros. lia.
Qed.

Lemma total_count_value_counts (values : list string) :
  total_count (value_counts values) = length values.
Proof.
  induction values as [|g values IH]; [reflexivity|].
  change (value_counts (g :: values))
    with (<[g := S (default 0%nat (value_counts values !! g))]>
            (value_counts values)).
  simpl length. rewrite <- IH.
  destruct (value_counts values !! g) as [n|] eqn:Hg.
  - rewrite <- insert_delete_eq.
    rewrite total_count_insert by apply lookup_delete_eq.
    rewrite (total_count_delete _ g n Hg). simpl. lia.
  - rewrite total_count_insert by exact Hg. reflexivity.
Qed.

Lemma count_read_present (l : library) :
  forallb has_read_status l = true ->
  count_read l = Ok (Z.of_nat (length (List.filter is_read l))).
Proof.
  induction l as [|b l IH]; intros H; [reflexivity|].
  simpl in H. apply andb_true_iff in H as [Hb Hl].
  simpl count_read. rewrite (IH Hl). simpl List.filter.
  unfold has_read_status in Hb. unfold is_read.
  destruct (read_status b) as [[|]|]; try discriminate; simpl rbind;
    [|reflexivity].
  f_equal. simpl length. lia.
Qed.

Lemma count_read_missing (l : library) :
  forallb has_read_status l = false ->
  count_read l = Raised (KeyError "read_status").
Proof.
  induction l as [|b l IH]; intros H; [discriminate|].
  simpl in H. simpl count_read. unfold has_read_status in H at 1.
  destruct (read_status b) as [r|]; [|reflexivity].
  simpl in H. simpl rbind. rewrite (IH H). reflexivity.
Qed.

Lemma genres_missing (l : library) :
  forallb has_genre l = false -> genres l = Raised (KeyError "genre").
Proof.
  induction l as [|b l IH]; intros H; [discriminate|].
  simpl in H. simpl genres. unfold has_genre in H at 1.
  destruct (genre b) as [g|]; [|reflexivity].
  simpl in H. simpl rbind. rewrite (IH H). reflexivity.
Qed.

Lemma genres_present (l : library) :
  forallb has_genre l = true -> genres l = Ok (map genre_of l).
Proof.
  induction l as [|b l IH]; intros H; [reflexivity|].
  simpl in H. apply andb_true_iff in H as [Hb Hl].
  simpl genres. rewrite (IH Hl). simpl map. unfold has_genre in Hb.
  destruct (genre b) as [g|] eqn:Hg; [|discriminate].
  replace (genre_of b) with g by (unfold genre_of; rewrite Hg; reflexivity).
  reflexivity.
Qed.

(** X7.  The genre counts that [display_statistics] charts add up to the
    number of books: for a non-empty catalog whose books all have a genre
    and a read status, the chart is the last thing rendered and the sum of
    its counts is the length of the catalog. *)
Theorem genre_counts_add_up (b : book) (l : library) (w : world) :
  forallb has_read_status (b :: l) = true ->
  forallb has_genre (b :: l) = true ->
  exists counts os,
    display_statistics (b :: l) w
    = (Ok tt, rendering (os ++ [bar_chart counts]) w) /\
    total_count counts = length (b :: l).
Proof.
  intros Hr Hg.
  exists (value_counts (map genre_of (b :: l))). eexists. split.
  - unfold display_statistics, bind, lift.
    rewrite (count_read_present _ Hr). cbv beta iota.
    rewrite show_run. cbv beta iota.
    rewrite show_run, rendering_rendering. cbv beta iota.
    rewrite (genres_present _ Hg). cbv beta iota.
    rewrite show_run, rendering_rendering. reflexivity.
  - rewrite total_count_value_counts. apply length_map.
Qed.

Lemma genre_counts_add_up_witness :
  forallb has_read_status [Dune; Foundation; dune] = true /\
  forallb has_genre [Dune; Foundation; dune] = true /\
  exists counts os,
    display_statistics [Dune; Foundation; dune] world0
    = (Ok tt, rendering (os ++ [bar_chart counts]) world0) /\
    total_count counts = 3%nat.
Proof.
  split; [reflexivity|]. split; [reflexivity|].
  exact (genre_counts_add_up Dune [Foundation; dune] world0 eq_refl eq_refl).
Defined.

(** X8.  A book without a read status makes [display_statistics] raise
    [KeyError] before anything is rendered.  When every book has a read
    status but some book has no genre, the two metrics are rendered first
    and [KeyError] for [genre] is raised after them, with no chart. *)
Theorem display_statistics_missing_key (l : library) (w : world) :
  (forallb has_read_status l = false ->
   display_statistics l w = (Raised (KeyError "read_status"), w)) /\
  (forallb has_read_status l = true ->
   forallb has_genre l = false ->
   exists total percent,
     display_statistics l w
     = (Raised (KeyError "genre"),
        rendering [metric "Total Books" total;
                   metric "Percentage Read" percent] w)).
Proof.
  split.
  - intros H. unfold display_statistics, bind, lift.
    rewrite (count_read_missing l H). reflexivity.
  - intros Hr Hg. eexists _, _.
    unfold display_statistics, bind, lift.
    rewrite (count_read_present l Hr). cbv beta iota.
    rewrite show_run. cbv beta iota.
    rewrite show_run, rendering_rendering. cbv beta iota.
    destruct l as [|b l']; [discriminate Hg|].
    rewrite (genres_missing _ Hg). reflexivity.
Qed.

Lemma display_statistics_missing_key_witness :
  forallb has_read_status [Dune; empty_book] = false /\
  display_statistics [Dune; empty_book] world0
  = (Raised (KeyError "read_status"), world0) /\
  forallb has_read_status [Dune; set_read_status true empty_book] = true /\
  forallb has_genre [Dune; set_read_status true empty_book] = false /\
  exists total percent,
    display_statistics [Dune; set_read_status true empty_book] world0
    = (Raised (KeyError "genre"),
       rendering [metric "Total Books" total;
                  metric "Percentage Read" percent] world0).
Proof.
  split; [reflexivity|]. split.
  - exact (proj1 (display_statistics_missing_key [Dune; empty_book] world0)
             eq_refl).
  - split; [reflexivity|]. split; [reflexivity|].
    exact (proj2 (display_statistics_missing_key
                    [Dune; set_read_status true empty_book] world0)
             eq_refl eq_refl).
Defined.

(** ** Importing: lines that count, and how texts compose *)

Lemma decode_line_unlabelled (line : string) (vars : list book * book) :
  is_labelled line = false ->
  decode_line line vars = vars /\ line_warnings line vars = [].
Proof.
  unfold is_labelled. intros H.
  repeat (apply orb_false_iff in H as [H ?]).
  unfold decode_line, line_warnings, import_line. destruct vars as [lib book].
  repeat match goal with Hs : Py.startswith _ _ = false |- _ =>
    rewrite Hs; clear Hs end.
  split; reflexivity.
Qed.

Lemma decode_lines_labelled (lines : list string) (vars : list book * book) :
  decode_lines (List.filter is_labelled lines) vars = decode_lines lines vars /\
  lines_warnings (List.filter is_labelled lines) vars
  = lines_warnings lines vars.
Proof.
  revert vars. induction lines as [|line rest IH]; intros vars.
  - split; reflexivity.
  - simpl List.filter. destruct (is_labelled line) eqn:Hl.
    + simpl. destruct (IH (decode_line line vars)) as [H1 H2].
      rewrite H1, H2. split; reflexivity.
    + destruct (decode_line_unlabelled line vars Hl) as [Hd Hw].
      simpl. rewrite Hd, Hw. apply IH.
Qed.

(** X9.  [import_library] looks only at the lines that start with one of
    its five labels: every other line (the delimiter, a blank line, any
    other text) can be left out of the lines it reads without changing the
    catalog it builds or the warnings it shows. *)
Theorem import_lines_ignores_unlabelled (lines : list string)
    (vars : list book * book) (w : world) :
  import_lines (List.filter is_labelled lines) vars w
  = import_lines lines vars w.
Proof.
  rewrite !import_lines_run.
  destruct (decode_lines_labelled lines vars) as [H1 H2].
  rewrite H1, H2. reflexivity.
Qed.

Lemma decode_line_lib (line : string) (lib : list book) (book : book) :
  decode_line line (lib, book)
  = (lib ++ fst (decode_line line ([], book)),
     snd (decode_line line ([], book))).
Proof.
  destruct (Py.startswith line "Read:") eqn:HR.
  - rewrite !decode_line_Read by exact HR. reflexivity.
  - unfold decode_line, import_line. rewrite HR.
    destruct (Py.startswith line "Title:");
      [simpl; rewrite app_nil_r; reflexivity|].
    destruct (Py.startswith line "Author:");
      [simpl; rewrite app_nil_r; reflexivity|].
    destruct (Py.startswith line "Year:").
    + destruct (Py.int _); simpl; rewrite app_nil_r; reflexivity.
    + destruct (Py.startswith line "Genre:");
        simpl; rewrite app_nil_r; reflexivity.
Qed.

Lemma decode_lines_lib (lines : list string) (lib : list book) (book : book) :
  decode_lines lines (lib, book)
  = (lib ++ fst (decode_lines lines ([], book)),
     snd (decode_lines lines ([], book))).
Proof.
  revert lib book. induction lines as [|line rest IH]; intros lib book.
  - simpl. rewrite app_nil_r. reflexivity.
  - simpl decode_lines. rewrite (decode_line_lib line lib book).
    destruct (decode_line line ([], book)) as [lib1 book1]. simpl fst.
    simpl snd. rewrite (IH (lib ++ lib1) book1), (IH lib1 book1).
    simpl. rewrite app_assoc. reflexivity.
Qed.

Lemma decode_lines_app (l1 l2 : list string) (vars : list book * book) :
  decode_lines (l1 ++ l2) vars = decode_lines l2 (decode_lines l1 vars).
Proof.
  revert vars. induction l1 as [|line l1 IH]; intros vars; [reflexivity|].
  simpl. apply IH.
Qed.

(** X10.  The import of a text splits at every [Read:] line: the books
    decoded from lines that end with a [Read:] line, followed by the books
    decoded from the remaining lines on their own, are the books decoded
    from all the lines.  No field of a record leaks into the next one. *)
Theorem decode_splits_at_Read_line (l1 l2 : list string) (r : string) :
  is_Read_line r = true ->
  fst (decode_lines (l1 ++ r :: l2) ([], empty_book))
  = fst (decode_lines (l1 ++ [r]) ([], empty_book))
    ++ fst (decode_lines l2 ([], empty_book)).
Proof.
  intros Hr. unfold is_Read_line in Hr.
  replace (l1 ++ r :: l2) with ((l1 ++ [r]) ++ l2)
    by (rewrite <- app_assoc; reflexivity).
  rewrite (decode_lines_app (l1 ++ [r]) l2).
  rewrite (decode_lines_app l1 [r]).
  destruct (decode_lines l1 ([], empty_book)) as [lib book].
  simpl decode_lines. rewrite (decode_line_Read r lib book Hr).
  rewrite (decode_lines_lib l2). reflexivity.
Qed.

Lemma decode_splits_at_Read_line_witness :
  is_Read_line "Read: No" = true /\
  fst (decode_lines (["Title: Emma"] ++ "Read: No" :: ["Genre: Novel"; "Read: Yes"])
         ([], empty_book))
  = [mkBook (Some "Emma") None None None (Some false)]
    ++ [mkBook None None None (Some "Novel") (Some true)].
Proof.
  split; [reflexivity|].
  exact (decode_splits_at_Read_line ["Title: Emma"]
           ["Genre: Novel"; "Read: Yes"] "Read: No" eq_refl).
Defined.

(** X11.  Lines after the last [Read:] line add no book to the catalog:
    a record whose [Read:] line is missing is left out of it. *)
Theorem decode_drops_unfinished_record (l1 l2 : list string)
    (vars : list book * book) :
  forallb (fun line => negb (is_Read_line line)) l2 = true ->
  fst (decode_lines (l1 ++ l2) vars) = fst (decode_lines l1 vars).
Proof.
  intros H. rewrite decode_lines_app.
  destruct (decode_lines l1 vars) as [lib book]. simpl fst.
  revert book. induction l2 as [|line l2 IH]; intros book; [reflexivity|].
  simpl in H. apply andb_true_iff in H as [Hl Hr].
  apply negb_true_iff in Hl. unfold is_Read_line in Hl.
  simpl decode_lines.
  pose proof (decode_line_not_Read line lib book Hl) as Hd.
  destruct (decode_line line (lib, book)) as [lib' book'].
  simpl in Hd. subst lib'. apply (IH Hr).
Qed.

Lemma decode_drops_unfinished_record_witness :
  forallb (fun line => negb (is_Read_line line))
    ["Title: Emma"; "Author: Austen"; "Year: 1815"; "Genre: Novel"] = true /\
  fst (decode_lines
         (record_lines Dune
          ++ ["Title: Emma"; "Author: Austen"; "Year: 1815"; "Genre: Novel"])
         ([], empty_book))
  = [Dune].
Proof.
  split; [reflexivity|].
  rewrite (decode_drops_unfinished_record (record_lines Dune)
             ["Title: Emma"; "Author: Austen"; "Year: 1815"; "Genre: Novel"]
             ([], empty_book) eq_refl).
  reflexivity.
Defined.

(** ** Importing a text with CR LF line ends *)

Lemma splitlines_crlf_line (line s rest : string) :
  single_line s = true ->
  Py.splitlines_from line false
    (String.append s (String Py.CR (String Py.LF rest)))
  = String.append line s :: Py.splitlines_from EmptyString false rest.
Proof.
  revert line. induction s as [|c s IH]; intros line H.
  - rewrite append_empty_l, append_empty_r. reflexivity.
  - simpl in H. apply andb_true_iff in H as [Hc Hs].
    apply negb_true_iff in Hc.
    rewrite append_cons, splitlines_from_cons, Hc. cbv beta iota.
    simpl andb. cbv iota. rewrite (IH _ Hs), append_assoc. reflexivity.
Qed.

Lemma splitlines_unlines_crlf (lines : list string) :
  forallb single_line lines = true ->
  Py.splitlines (unlines_crlf lines) = lines.
Proof.
  unfold Py.splitlines. induction lines as [|line rest IH]; intros H.
  - reflexivity.
  - simpl in H. apply andb_true_iff in H as [Hl Hr].
    simpl unlines_crlf. rewrite (splitlines_crlf_line _ _ _ Hl), (IH Hr).
    reflexivity.
Qed.

(** X12.  The line ends of the text do not matter to the import: a text
    whose lines end in CR LF is read as the same lines as the text whose
    lines end in LF, so an export written with CR LF line ends comes back
    as the catalog it was written from. *)
Theorem import_library_reads_crlf (c : library) (w : world) :
  forallb round_trips c = true ->
  Py.splitlines (unlines_crlf (flat_map record_lines c))
  = Py.splitlines (encode c) /\
  fst (import_library
         (Uploaded (Ok (unlines_crlf (flat_map record_lines c)))) w)
  = Ok (Some c).
Proof.
  intros H.
  assert (Hs : forallb single_line (flat_map record_lines c) = true).
  { apply forallb_flat_map. intros b Hb. apply record_lines_single.
    rewrite forallb_forall in H. apply H. exact Hb. }
  assert (Hsplit : Py.splitlines (unlines_crlf (flat_map record_lines c))
                   = Py.splitlines (encode c)).
  { unfold encode.
    rewrite (splitlines_unlines_crlf _ Hs), (splitlines_unlines _ Hs).
    reflexivity. }
  split; [exact Hsplit|].
  rewrite import_library_run. unfold decode. rewrite Hsplit.
  fold (decode (encode c)). rewrite (decode_encode c H). reflexivity.
Qed.

Lemma import_library_reads_crlf_witness :
  forallb round_trips [Dune; Foundation] = true /\
  fst (import_library
         (Uploaded (Ok (unlines_crlf (flat_map record_lines
                                        [Dune; Foundation])))) world0)
  = Ok (Some [Dune; Foundation]).
Proof.
  split; [reflexivity|].
  exact (proj2 (import_library_reads_crlf [Dune; Foundation] world0 eq_refl)).
Defined.

(** ** An import that fails *)

(** X13.  When no file is uploaded, or the uploaded bytes cannot be decoded
    as text, the import changes nothing that matters: [main] keeps the
    catalog it had loaded, both files are left as they were, and the only
    trace is the error message shown for the undecodable upload. *)
Theorem main_import_failure_keeps_catalog (library : library) (e : exn)
    (w : world) :
  main_import library NoFile w = (Ok library, w) /\
  main_import library (Uploaded (Raised e)) w
  = (Ok library, rendering [error (ImportError e)] w).
Proof. split; reflexivity. Qed.

(** ** What the text format does to a book *)

Lemma decode_record_normal (b : book) (rest : list string) (lib : list book) :
  exportable b = true ->
  decode_lines (record_lines b ++ rest) (lib, empty_book)
  = decode_lines rest (lib ++ [normalize b], empty_book).
Proof.
  unfold exportable, record_lines.
  destruct b as [[t|] [a|] [y|] [g|] [r|]]; simpl; try discriminate.
  intros _. destruct (year_back y) as [Hy _].
  rewrite decode_line_Title, decode_line_Author, decode_line_Year, Hy.
  rewrite decode_line_Genre.
  rewrite decode_line_Read by (destruct r; reflexivity).
  f_equal. destruct r; reflexivity.
Qed.

Lemma exportable_lines_single (b : book) :
  exportable b = true -> forallb single_line (record_lines b) = true.
Proof.
  unfold exportable, record_lines.
  destruct (title b) as [t|], (author b) as [a|], (year b) as [y|],
    (genre b) as [g|], (read_status b) as [r|]; try discriminate.
  intros H. apply andb_true_iff in H as [H Hg].
  apply andb_true_iff in H as [Ht Ha].
  destruct (year_back y) as [_ Hy].
  simpl forallb.
  rewrite !single_line_label
    by (assumption || reflexivity || (destruct r; reflexivity)).
  reflexivity.
Qed.

(** X14.  For every catalog of complete books whose text fields are single
    lines, importing the exported text gives back as many books, in the
    same order, each with its year and read status intact and each text
    field stripped of the white space at its ends after the occurrences of
    its own label have been deleted from it. *)
Theorem export_import_normalizes (c : library) (w w' : world) :
  forallb exportable c = true ->
  exists text,
    library_txt (snd (export_library c true w)) = Some text /\
    fst (import_library (Uploaded (Ok text)) w') = Ok (Some (map normalize c)).
Proof.
  intros H. exists (encode c). split.
  - rewrite export_library_run; [reflexivity|].
    rewrite forallb_forall in *. intros b Hb. specialize (H b Hb).
    unfold exportable in H. unfold is_complete.
    destruct (title b), (author b), (year b), (genre b), (read_status b);
      try discriminate; reflexivity.
  - rewrite import_library_run. do 2 f_equal.
    unfold decode, encode. rewrite splitlines_unlines.
    + assert (Hd : forall lib,
                 decode_lines (flat_map record_lines c) (lib, empty_book)
                 = (lib ++ map normalize c, empty_book)).
      { clear w w'. induction c as [|b c IH]; intros lib.
        - simpl. rewrite app_nil_r. reflexivity.
        - simpl in H. apply andb_true_iff in H as [Hb Hc].
          simpl flat_map. rewrite (decode_record_normal b _ lib Hb).
          rewrite (IH Hc). simpl map. rewrite <- app_assoc. reflexivity. }
      rewrite Hd. reflexivity.
    + apply forallb_flat_map. intros b Hb. apply exportable_lines_single.
      rewrite forallb_forall in H. apply H. exact Hb.
Qed.

Lemma export_import_normalizes_witness :
  forallb exportable
    [mkBook (Some "  Title: Emma ") (Some "Austen") (Some None)
       (Some " Novel") (Some false)] = true /\
  exists text,
    library_txt
      (snd (export_library
              [mkBook (Some "  Title: Emma ") (Some "Austen") (Some None)
                 (Some " Novel") (Some false)] true world0))
    = Some text /\
    fst (import_library (Uploaded (Ok text)) world0)
    = Ok (Some [mkBook (Some "Emma") (Some "Austen") (Some None)
                  (Some "Novel") (Some false)]).
Proof.
  split; [reflexivity|].
  exact (export_import_normalizes
           [mkBook (Some "  Title: Emma ") (Some "Austen") (Some None)
              (Some " Novel") (Some false)] world0 world0 eq_refl).
Defined.

(** ** What every imported book satisfies *)

Lemma rstrip_cons (c : ascii) (s : string) :
  Py.is_space c = false ->
  Py.rstrip (String c s) = String c (Py.rstrip s).
Proof. intros H. simpl. rewrite H. destruct (Py.rstrip s); reflexivity. Qed.

Lemma rstrip_rstrip (s : string) : Py.rstrip (Py.rstrip s) = Py.rstrip s.
Proof.
  induction s as [|c s IH]; [reflexivity|].
  simpl. destruct (Py.rstrip s) as [|d r] eqn:Hr.
  - destruct (Py.is_space c) eqn:Hc; [reflexivity|].
    simpl. rewrite Hc. reflexivity.
  - change (Py.rstrip (String c (String d r)))
      with (match Py.rstrip (String d r) with
            | EmptyString =>
                if Py.is_space c then EmptyString else String c EmptyString
            | String _ _ as r' => String c r'
            end).
    rewrite IH. reflexivity.
Qed.

Lemma lstrip_head (s : string) :
  Py.lstrip s = EmptyString \/
  exists c s', Py.lstrip s = String c s' /\ Py.is_space c = false.
Proof.
  induction s as [|c s IH]; [left; reflexivity|].
  simpl. destruct (Py.is_space c) eqn:Hc; [exact IH|].
  right. exists c, s. split; [reflexivity | exact Hc].
Qed.

(** [s.strip().strip() == s.strip()] *)
Lemma strip_strip (s : string) : Py.strip (Py.strip s) = Py.strip s.
Proof.
  unfold Py.strip. destruct (lstrip_head s) as [H|[c [s' [H Hc]]]];
    rewrite H; [reflexivity|].
  rewrite (rstrip_cons c s' Hc).
  replace (Py.lstrip (String c (Py.rstrip s')))
    with (String c (Py.rstrip s')) by (simpl; rewrite Hc; reflexivity).
  rewrite (rstrip_cons c _ Hc), rstrip_rstrip. reflexivity.
Qed.

Lemma trimmed_strip (s : string) : trimmed (Some (Py.strip s)) = true.
Proof. simpl. rewrite strip_strip. apply String.eqb_refl. Qed.

Lemma decode_line_trimmed (line : string) (lib : list book) (book : book) :
  forallb trimmed_fields lib = true -> trimmed_fields book = true ->
  forallb trimmed_fields (fst (decode_line line (lib, book))) = true /\
  trimmed_fields (snd (decode_line line (lib, book))) = true.
Proof.
  intros Hlib Hbook.
  unfold trimmed_fields in Hbook.
  apply andb_true_iff in Hbook as [Hbook Hg].
  apply andb_true_iff in Hbook as [Ht Ha].
  unfold decode_line, import_line.
  destruct (Py.startswith line "Title:").
  { simpl. split; [exact Hlib|]. unfold trimmed_fields. simpl.
    rewrite strip_strip, String.eqb_refl, Ha, Hg. reflexivity. }
  destruct (Py.startswith line "Author:").
  { simpl. split; [exact Hlib|]. unfold trimmed_fields. simpl.
    rewrite strip_strip, String.eqb_refl, Ht, Hg. reflexivity. }
  destruct (Py.startswith line "Year:").
  { destruct (Py.int _); simpl; (split; [exact Hlib|]);
      unfold trimmed_fields; simpl; rewrite Ht, Ha, Hg; reflexivity. }
  destruct (Py.startswith line "Genre:").
  { simpl. split; [exact Hlib|]. unfold trimmed_fields. simpl.
    rewrite strip_strip, String.eqb_refl, Ht, Ha. reflexivity. }
  destruct (Py.startswith line "Read:").
  - simpl. split; [|reflexivity].
    rewrite forallb_snoc, Hlib. unfold trimmed_fields. simpl.
    rewrite Ht, Ha, Hg. reflexivity.
  - simpl. split; [exact Hlib|]. unfold trimmed_fields.
    rewrite Ht, Ha, Hg. reflexivity.
Qed.

Lemma decode_lines_trimmed (lines : list string) (lib : list book)
    (book : book) :
  forallb trimmed_fields lib = true -> trimmed_fields book = true ->
  forallb trimmed_fields (fst (decode_lines lines (lib, book))) = true.
Proof.
  revert lib book. induction lines as [|line rest IH]; intros lib book Hl Hb.
  - exact Hl.
  - simpl decode_lines.
    destruct (decode_line_trimmed line lib book Hl Hb) as [H1 H2].
    destruct (decode_line line (lib, book)) as [lib' book'].
    apply IH; assumption.
Qed.

(** X15.  Whatever the uploaded text, no title, author or genre of an
    imported book starts or ends with white space: each text field of each
    book that [import_library] returns is its own [strip]. *)
Theorem imported_fields_are_stripped (text : string) (w : world) :
  exists lib,
    fst (import_library (Uploaded (Ok text)) w) = Ok (Some lib) /\
    forallb trimmed_fields lib = true.
Proof.
  rewrite import_library_run. exists (decode text).
  split; [reflexivity|]. unfold decode.
  apply decode_lines_trimmed; reflexivity.
Qed.

(** ** The warnings of an import *)

Lemma line_warnings_invalid_year (line : string) (vars : list book * book) :
  line_warnings line vars
  = if invalid_year_line line then [warning (InvalidYear line)] else [].
Proof.
  unfold invalid_year_line, line_warnings, import_line.
  destruct vars as [lib book].
  destruct (Py.startswith line "Year:") eqn:HY.
  - rewrite (startswith_exclusive line "Y" "T" _ "itle:" ltac:(discriminate) HY).
    rewrite (startswith_exclusive line "Y" "A" _ "uthor:" ltac:(discriminate) HY).
    destruct (Py.int _); reflexivity.
  - destruct (Py.startswith line "Title:"); [reflexivity|].
    destruct (Py.startswith line "Author:"); [reflexivity|].
    destruct (Py.startswith line "Genre:"); [reflexivity|].
    destruct (Py.startswith line "Read:"); reflexivity.
Qed.

Lemma lines_warnings_invalid_years (lines : list string)
    (vars : list book * book) :
  lines_warnings lines vars
  = map (fun line => warning (InvalidYear line))
      (List.filter invalid_year_line lines).
Proof.
  revert vars. induction lines as [|line rest IH]; intros vars; [reflexivity|].
  simpl. rewrite line_warnings_invalid_year, IH.
  destruct (invalid_year_line line); reflexivity.
Qed.

(** X16.  When no line of the text is longer than the number of digits
    that [int] reads, an import renders one warning for each [Year:] line
    whose value is not an integer, in the order of the lines and quoting
    the line, and then the success message; it renders nothing else, and
    the text file of the export and the session flag are left as they
    were. *)
Theorem import_library_warnings (text : string) (w : world) :
  short_lines text = true ->
  let w' := snd (import_library (Uploaded (Ok text)) w) in
  page w'
  = page w
    ++ map (fun line => warning (InvalidYear line))
         (List.filter invalid_year_line (Py.splitlines text))
    ++ [success Imported] /\
  library_txt w' = library_txt w /\
  confirm_clear w' = confirm_clear w.
Proof.
  intros _. cbv zeta.
  rewrite import_library_run, lines_warnings_invalid_years.
  split; [reflexivity | split; reflexivity].
Qed.

Lemma import_library_warnings_witness :
  short_lines (unlines ["Title: Dune"; "Year: MCMLXV"; "Read: Yes"]) = true /\
  page (snd (import_library
               (Uploaded (Ok (unlines ["Title: Dune"; "Year: MCMLXV";
                                       "Read: Yes"])))
               world0))
  = [warning (InvalidYear "Year: MCMLXV"); success Imported].
Proof.
  split; [vm_compute; reflexivity|].
  rewrite (proj1 (import_library_warnings
                    (unlines ["Title: Dune"; "Year: MCMLXV"; "Read: Yes"])
                    world0 ltac:(vm_compute; reflexivity))).
  vm_compute. reflexivity.
Defined.

(** ** The session flag *)

Lemma same_flag_refl (w : world) : same_flag w w.
Proof. reflexivity. Qed.

Lemma same_flag_trans (w1 w2 w3 : world) :
  same_flag w1 w2 -> same_flag w2 w3 -> same_flag w1 w3.
Proof. unfold same_flag. congruence. Qed.

Lemma same_flag_bind {A B} (c : M A) (k : A -> M B) :
  respects same_flag c -> (forall a, respects same_flag (k a)) ->
  respects same_flag (bind c k).
Proof. apply respects_bind. exact same_flag_trans. Qed.

Lemma same_flag_ret {A} (a : A) : respects same_flag (ret a).
Proof. intros w. reflexivity. Qed.

Lemma same_flag_lift {A} (r : result A) : respects same_flag (lift r).
Proof. intros w. reflexivity. Qed.

Lemma same_flag_show (o : output) : respects same_flag (show o).
Proof. intros w. reflexivity. Qed.

Lemma same_flag_save_library (l : library) : respects same_flag (save_library l).
Proof. intros w. rewrite save_library_run. reflexivity. Qed.

Lemma same_flag_write_txt (text : string) : respects same_flag (write_txt text).
Proof. intros w. reflexivity. Qed.

Lemma same_flag_only_renders {A} (c : M A) :
  respects only_renders c -> respects same_flag c.
Proof. intros H w. destruct (H w) as [os ->]. reflexivity. Qed.

Lemma same_flag_export_book (b : book) : respects same_flag (export_book b).
Proof.
  unfold export_book.
  repeat (apply same_flag_bind;
          [first [apply same_flag_lift | apply same_flag_write_txt]
          | intros ?]).
  apply same_flag_write_txt.
Qed.

Lemma same_flag_import_library (u : upload) :
  respects same_flag (import_library u).
Proof.
  intros w. destruct u as [|[text|e]]; [reflexivity| |reflexivity].
  rewrite import_library_run. reflexivity.
Qed.

(** X17.  Only [clear_library] touches the session flag that arms the
    clearing: every other handler, on every input and whether it returns
    or raises, leaves the flag as it found it. *)
Theorem handlers_keep_confirm_clear (l : library) (w : world) :
  (forall t a y g r button,
     confirm_clear (snd (add_book l t a y g r button w)) = confirm_clear w) /\
  (forall t button,
     confirm_clear (snd (remove_book l t button w)) = confirm_clear w) /\
  (forall q, confirm_clear (snd (search_books l q w)) = confirm_clear w) /\
  confirm_clear (snd (display_statistics l w)) = confirm_clear w /\
  (forall button,
     confirm_clear (snd (export_library l button w)) = confirm_clear w) /\
  (forall u, confirm_clear (snd (main_import l u w)) = confirm_clear w).
Proof.
  split; [|split; [|split; [|split; [|split]]]].
  - intros t a y g r button.
    assert (H : respects same_flag (add_book l t a y g r button)).
    { unfold add_book. destruct button; [|apply same_flag_ret].
      destruct (truthy t && truthy a && nonzero y && truthy g).
      - apply same_flag_bind; [apply same_flag_save_library | intros _].
        apply same_flag_bind; [apply same_flag_show | intros _].
        apply same_flag_ret.
      - apply same_flag_bind; [apply same_flag_show | intros _].
        apply same_flag_ret. }
    exact (H w).
  - intros t button.
    assert (H : respects same_flag (remove_book l t button)).
    { unfold remove_book. destruct button; [|apply same_flag_ret].
      apply same_flag_bind; [apply same_flag_lift | intros kept].
      destruct (length kept <? length l)%nat.
      - apply same_flag_bind; [apply same_flag_save_library | intros _].
        apply same_flag_bind; [apply same_flag_show | intros _].
        apply same_flag_ret.
      - apply same_flag_bind; [apply same_flag_show | intros _].
        apply same_flag_ret. }
    exact (H w).
  - intros q.
    exact (same_flag_only_renders _ (search_books_only_renders l q) w).
  - exact (same_flag_only_renders _ (display_statistics_only_renders l) w).
  - intros button.
    assert (H : respects same_flag (export_library l button)).
    { unfold export_library. destruct button; [|apply same_flag_ret].
      apply (respects_try_except _ same_flag_trans).
      - apply same_flag_bind; [intros w0; reflexivity | intros _].
        apply same_flag_bind; [|intros _; apply same_flag_show].
        apply (respects_for_each _ same_flag_refl same_flag_trans).
        apply same_flag_export_book.
      - intros e. apply same_flag_show. }
    exact (H w).
  - intros u.
    assert (H : respects same_flag (main_import l u)).
    { unfold main_import.
      apply same_flag_bind; [apply same_flag_import_library|].
      intros [[|b imported]|]; apply same_flag_ret. }
    exact (H w).
Qed.

Lemma clear_library_unarmed (l : library) (w : world) :
  confirm_clear w = false ->
  clear_library l true w
  = (Ok l, mkWorld (library_json w) (library_txt w) true
             (page w ++ [warning ConfirmClear])).
Proof.
  intros H. unfold clear_library, bind, get_confirm_clear. rewrite H.
  reflexivity.
Qed.

Lemma clear_library_armed (l : library) (w : world) :
  confirm_clear w = true ->
  clear_library l true w
  = (Ok [], mkWorld (Some (Json.dumps [])) (library_txt w) false
              (page w ++ [success Cleared])).
Proof.
  intros H. unfold clear_library, bind, get_confirm_clear. rewrite H.
  rewrite save_library_run. reflexivity.
Qed.

(** X18.  The confirmation does not lapse: after a first press of the
    clear button, a book added in between does not disarm the clearing,
    and the next press empties the catalog, the new book included, and
    saves the empty catalog without asking again. *)
Theorem clear_library_confirmation_does_not_lapse (l : library)
    (t a : string) (y : Z) (g : string) (r : bool) (w : world) :
  confirm_clear w = false ->
  truthy t && truthy a && nonzero y && truthy g = true ->
  exists w1 w2 w3,
    clear_library l true w = (Ok l, w1) /\
    add_book l t a y g r true w1
    = (Ok (l ++ [mkBook (Some t) (Some a) (Some (Some y)) (Some g) (Some r)]),
       w2) /\
    clear_library
      (l ++ [mkBook (Some t) (Some a) (Some (Some y)) (Some g) (Some r)])
      true w2
    = (Ok [], w3) /\
    library_json w3 = Some "[]" /\
    page w3
    = page w ++ [warning ConfirmClear; success (BookAdded t a);
                 success Cleared].
Proof.
  intros Hflag Hok. eexists _, _, _.
  split; [|split; [|split; [|split]]].
  - apply clear_library_unarmed. exact Hflag.
  - apply add_book_accepted. exact Hok.
  - apply clear_library_armed. reflexivity.
  - reflexivity.
  - simpl. rewrite <- !app_assoc. reflexivity.
Qed.

Lemma clear_library_confirmation_does_not_lapse_witness :
  confirm_clear world0 = false /\
  exists w1 w2 w3,
    clear_library [Foundation] true world0 = (Ok [Foundation], w1) /\
    add_book [Foundation] "Dune" "Herbert" 1965 "Sci-Fi" true true w1
    = (Ok ([Foundation] ++ [Dune]), w2) /\
    clear_library ([Foundation] ++ [Dune]) true w2 = (Ok [], w3) /\
    library_json w3 = Some "[]" /\
    page w3
    = page world0 ++ [warning ConfirmClear;
                      success (BookAdded "Dune" "Herbert"); success Cleared].
Proof.
  split; [reflexivity|].
  exact (clear_library_confirmation_does_not_lapse [Foundation] "Dune"
           "Herbert" 1965 "Sci-Fi" true world0 eq_refl eq_refl).
Defined.

(** ** The saved catalog keeps step with the catalog in hand *)

(** X19.  If the file holds the catalog when a handler that can change the
    catalog is entered, it holds the catalog the handler returns when the
    handler is left: this is so for [add_book], [remove_book] and
    [clear_library] on every input; and when [remove_book] raises, the
    world is as it was. *)
Theorem saved_catalog_keeps_step (l : library) (w : world) :
  library_json w = Some (Json.dumps l) ->
  (forall t a y g r button,
     exists l', fst (add_book l t a y g r button w) = Ok l' /\
                library_json (snd (add_book l t a y g r button w))
                = Some (Json.dumps l')) /\
  (forall t button,
     (exists l', fst (remove_book l t button w) = Ok l' /\
                 library_json (snd (remove_book l t button w))
                 = Some (Json.dumps l')) \/
     (exists e, remove_book l t button w = (Raised e, w))) /\
  (forall button,
     exists l', fst (clear_library l button w) = Ok l' /\
                library_json (snd (clear_library l button w))
                = Some (Json.dumps l')).
Proof.
  intros Hsync. split; [|split].
  - intros t a y g r [|]; [|exists l; split; [reflexivity | exact Hsync]].
    destruct (truthy t && truthy a && nonzero y && truthy g) eqn:Hok.
    + rewrite (add_book_accepted l t a y g r w Hok).
      eexists. split; reflexivity.
    + unfold add_book. rewrite Hok. exists l. split; [reflexivity | exact Hsync].
  - intros t [|]; [|left; exists l; split; [reflexivity | exact Hsync]].
    destruct (forallb has_title l) eqn:Hl.
    + left. rewrite (remove_book_run l t w Hl). cbv zeta.
      destruct (Nat.ltb_spec
                  (length (List.filter (fun b => negb (same_title t b)) l))
                  (length l)) as [Hlt|Hge].
      * eexists. split; reflexivity.
      * exists (List.filter (fun b => negb (same_title t b)) l).
        split; [reflexivity|]. simpl. rewrite Hsync. do 2 f_equal.
        symmetry. apply filter_none_all. apply length_zero_iff_nil.
        pose proof (filter_length_partition (same_title t) l). lia.
    + right. exists (KeyError "title").
      apply remove_book_missing_title_run. exact Hl.
  - intros [|]; [|exists l; split; [reflexivity | exact Hsync]].
    unfold clear_library, bind, get_confirm_clear.
    destruct (confirm_clear w).
    + rewrite save_library_run. exists []. split; reflexivity.
    + exists l. split; [reflexivity | exact Hsync].
Qed.

Lemma saved_catalog_keeps_step_witness :
  library_json (world_with [Dune; Foundation])
  = Some (Json.dumps [Dune; Foundation]) /\
  exists l',
    fst (remove_book [Dune; Foundation] "dune" true
           (world_with [Dune; Foundation])) = Ok l' /\
    library_json
      (snd (remove_book [Dune; Foundation] "dune" true
              (world_with [Dune; Foundation])))
    = Some (Json.dumps l').
Proof.
  split; [reflexivity|].
  destruct (proj1 (proj2 (saved_catalog_keeps_step [Dune; Foundation]
                            (world_with [Dune; Foundation]) eq_refl))
              "dune" true) as [H|[e H]].
  - exact H.
  - discriminate H.
Defined.

(** ** The shape of the exported text *)

Lemma record_lines_length (b : book) :
  exportable b = true -> length (record_lines b) = 6%nat.
Proof.
  unfold exportable, record_lines.
  destruct (title b), (author b), (year b), (genre b), (read_status b);
    try discriminate.
  reflexivity.
Qed.

Lemma flat_map_length_const {A B} (f : A -> list B) (n : nat) (l : list A) :
  (forall x, In x l -> length (f x) = n) ->
  length (flat_map f l) = (n * length l)%nat.
Proof.
  induction l as [|x l IH]; intros H; simpl; [lia|].
  rewrite length_app, (H x (or_introl eq_refl)), IH by (intros; apply H; right; assumption).
  lia.
Qed.

(** X20.  For every catalog of complete books whose text fields are single
    lines, the text that [export_library] writes, split into lines, is the
    six lines of each book in catalog order (title, author, year, genre,
    read, delimiter) and nothing else: six lines for each book. *)
Theorem export_library_six_lines_a_book (c : library) (w : world) :
  forallb exportable c = true ->
  exists text,
    library_txt (snd (export_library c true w)) = Some text /\
    Py.splitlines text = flat_map record_lines c /\
    length (Py.splitlines text) = (6 * length c)%nat.
Proof.
  intros H. exists (encode c).
  assert (Hs : Py.splitlines (encode c) = flat_map record_lines c).
  { unfold encode. apply splitlines_unlines.
    apply forallb_flat_map. intros b Hb. apply exportable_lines_single.
    rewrite forallb_forall in H. apply H. exact Hb. }
  split; [|split].
  - rewrite export_library_run; [reflexivity|].
    rewrite forallb_forall in *. intros b Hb. specialize (H b Hb).
    unfold exportable in H. unfold is_complete.
    destruct (title b), (author b), (year b), (genre b), (read_status b);
      try discriminate; reflexivity.
  - exact Hs.
  - rewrite Hs. apply flat_map_length_const. intros b Hb.
    apply record_lines_length. rewrite forallb_forall in H. apply H. exact Hb.
Qed.

Lemma export_library_six_lines_a_book_witness :
  forallb exportable [Dune; Foundation; dune] = true /\
  exists text,
    library_txt (snd (export_library [Dune; Foundation; dune] true world0))
    = Some text /\
    Py.splitlines text = flat_map record_lines [Dune; Foundation; dune] /\
    length (Py.splitlines text) = (6 * 3)%nat.
Proof.
  split; [reflexivity|].
  exact (export_library_six_lines_a_book [Dune; Foundation; dune] world0
           eq_refl).
Defined.
